(** * InteractOutsideDirective: listener lifecycle and event classification

    A shallow embedding of [InteractOutsideDirective]
    (interact-outside.directive.ts) together with the small part of the
    browser it talks to: [Node.contains], [Renderer2.listen] and
    [EventTarget.dispatchEvent].

    The directive is a record of its private fields; every method is a
    function from the world (directive, renderer, the two emitters) to the
    world, in the order of the statements of the source. *)

From Stdlib Require Import List Bool Arith String Lia.
Import ListNotations.
Open Scope string_scope.
Open Scope list_scope.

(** ** The DOM the directive observes *)

(** A node is addressed by the child indexes that lead to it from the
    document, which is the empty path. *)
Definition Node := list nat.

Definition document : Node := [].

Definition Node_eqb (a b : Node) : bool :=
  if list_eq_dec Nat.eq_dec a b then true else false.

(** [Node.contains(other)]: [other] is the node itself or one of its
    descendants. *)
Fixpoint contains (node other : Node) : bool :=
  match node, other with
  | [], _ => true
  | _ :: _, [] => false
  | i :: node', j :: other' => Nat.eqb i j && contains node' other'
  end.

(** A [Touch] point; only its [target] is read. *)
Record Touch := mkTouch { touch_target : option Node }.

(** A [TouchList] as JavaScript sees it: indexing may give [undefined]. *)
Definition TouchList := list (option Touch).

(** The event object handed to a listener.  [MouseEvent] and [TouchEvent]
    are one object type at run time; a field the event does not carry is
    [None] ([null] or [undefined]). *)
Record Event := mkEvent {
  type : string;
  bubbles : bool;
  target : option Node;
  relatedTarget : option Node;
  toElement : option Node;
  touches : option TouchList;
  targetTouches : option TouchList;
  changedTouches : option TouchList
}.

Definition with_target (n : Node) (e : Event) : Event :=
  mkEvent (type e) (bubbles e) (Some n) (relatedTarget e) (toElement e)
          (touches e) (targetTouches e) (changedTouches e).

(** ** Renderer2 *)

(** First argument of [Renderer2.listen]: a string names a global target,
    anything else is the element itself. *)
Inductive ListenTarget :=
| Global (name : string)
| Element (n : Node).

(** The three arrow functions [updateListeners] registers. *)
Inductive Callback :=
| OnMouseDown
| OnTouchStart
| OnMouseLeave.

Definition Callback_eqb (a b : Callback) : bool :=
  match a, b with
  | OnMouseDown, OnMouseDown => true
  | OnTouchStart, OnTouchStart => true
  | OnMouseLeave, OnMouseLeave => true
  | _, _ => false
  end.

(** One registration.  [unlistenId] identifies the function [listen]
    returned: calling that function removes this registration and no
    other. *)
Record Listener := mkListener {
  unlistenId : nat;
  listenTarget : ListenTarget;
  eventName : string;
  callback : Callback
}.

Record Renderer2 := mkRenderer {
  nextId : nat;
  listeners : list Listener
}.

(** [renderer.listen(target, eventName, callback)]: registers and returns
    the function that removes the registration. *)
Definition listen (t : ListenTarget) (name : string) (cb : Callback)
    (r : Renderer2) : Renderer2 * nat :=
  (mkRenderer (S (nextId r))
              (listeners r ++ [mkListener (nextId r) t name cb]),
   nextId r).

(** Calling the function returned by [listen]. *)
Definition unlisten (id : nat) (r : Renderer2) : Renderer2 :=
  mkRenderer (nextId r)
             (filter (fun l => negb (Nat.eqb (unlistenId l) id)) (listeners r)).

(** ** The directive *)

Record InteractOutsideDirective := mkDirective {
  _isListening : bool;
  _listenMouseDownOutside : bool;
  _listenTouchStartOutside : bool;
  _listenMouseLeave : bool;
  htmlElement : Node;
  isInitialized : bool;
  (* Listeners references retained for removal; [None] is [undefined] or
     [null], both falsy. *)
  mouseDownListener : option nat;
  touchStartListener : option nat;
  mouseLeaveListener : option nat
}.

(** The directive with what it owns and borrows: the renderer, and what
    each [EventEmitter] has emitted so far, oldest first. *)
Record World := mkWorld {
  directive : InteractOutsideDirective;
  renderer : Renderer2;
  interactOutsideEvent : list Event;
  mouseLeaveEvent : list Event
}.

Record CurrentState := mkCurrentState {
  cs_isListening : bool;
  cs_listenMouseDownOutside : bool;
  cs_listenTouchStartOutside : bool;
  cs_listenMouseLeave : bool;
  listenersCleared : bool
}.

(** Field defaults and the constructor. *)
Definition constructor (nativeElement : Node) (r : Renderer2) : World :=
  mkWorld (mkDirective true true false false nativeElement false
                       None None None)
          r [] [].

(** A freshly created renderer with a freshly created directive. *)
Definition construct (nativeElement : Node) : World :=
  constructor nativeElement (mkRenderer 0 []).

Definition with_directive (d : InteractOutsideDirective) (w : World) : World :=
  mkWorld d (renderer w) (interactOutsideEvent w) (mouseLeaveEvent w).

Definition with_renderer (r : Renderer2) (w : World) : World :=
  mkWorld (directive w) r (interactOutsideEvent w) (mouseLeaveEvent w).

Definition set_isListening (v : bool) (d : InteractOutsideDirective) :=
  mkDirective v (_listenMouseDownOutside d) (_listenTouchStartOutside d)
    (_listenMouseLeave d) (htmlElement d) (isInitialized d)
    (mouseDownListener d) (touchStartListener d) (mouseLeaveListener d).

Definition set_listenMouseDownOutside (v : bool) (d : InteractOutsideDirective) :=
  mkDirective (_isListening d) v (_listenTouchStartOutside d)
    (_listenMouseLeave d) (htmlElement d) (isInitialized d)
    (mouseDownListener d) (touchStartListener d) (mouseLeaveListener d).

Definition set_listenTouchStartOutside (v : bool) (d : InteractOutsideDirective) :=
  mkDirective (_isListening d) (_listenMouseDownOutside d) v
    (_listenMouseLeave d) (htmlElement d) (isInitialized d)
    (mouseDownListener d) (touchStartListener d) (mouseLeaveListener d).

Definition set_listenMouseLeave (v : bool) (d : InteractOutsideDirective) :=
  mkDirective (_isListening d) (_listenMouseDownOutside d)
    (_listenTouchStartOutside d) v (htmlElement d) (isInitialized d)
    (mouseDownListener d) (touchStartListener d) (mouseLeaveListener d).

Definition set_isInitialized (v : bool) (d : InteractOutsideDirective) :=
  mkDirective (_isListening d) (_listenMouseDownOutside d)
    (_listenTouchStartOutside d) (_listenMouseLeave d) (htmlElement d) v
    (mouseDownListener d) (touchStartListener d) (mouseLeaveListener d).

Definition set_mouseDownListener (h : option nat) (d : InteractOutsideDirective) :=
  mkDirective (_isListening d) (_listenMouseDownOutside d)
    (_listenTouchStartOutside d) (_listenMouseLeave d) (htmlElement d)
    (isInitialized d) h (touchStartListener d) (mouseLeaveListener d).

Definition set_touchStartListener (h : option nat) (d : InteractOutsideDirective) :=
  mkDirective (_isListening d) (_listenMouseDownOutside d)
    (_listenTouchStartOutside d) (_listenMouseLeave d) (htmlElement d)
    (isInitialized d) (mouseDownListener d) h (mouseLeaveListener d).

Definition set_mouseLeaveListener (h : option nat) (d : InteractOutsideDirective) :=
  mkDirective (_isListening d) (_listenMouseDownOutside d)
    (_listenTouchStartOutside d) (_listenMouseLeave d) (htmlElement d)
    (isInitialized d) (mouseDownListener d) (touchStartListener d) h.

(** [cleared = f && f()]: calls the retained function when there is one. *)
Definition call_if_set (f : option nat) (r : Renderer2) : Renderer2 :=
  match f with
  | Some id => unlisten id r
  | None => r
  end.

Definition clearListeners (w : World) : World :=
  let d := directive w in
  let r := call_if_set (mouseDownListener d) (renderer w) in
  let r := call_if_set (touchStartListener d) r in
  let r := call_if_set (mouseLeaveListener d) r in
  let d := set_mouseDownListener None d in
  let d := set_touchStartListener None d in
  let d := set_mouseLeaveListener None d in
  with_renderer r (with_directive d w).

(** One [this.xListener = this.renderer.listen(...)] statement. *)
Definition install (t : ListenTarget) (name : string) (cb : Callback)
    (store : option nat -> InteractOutsideDirective -> InteractOutsideDirective)
    (w : World) : World :=
  let (r, f) := listen t name cb (renderer w) in
  with_renderer r (with_directive (store (Some f) (directive w)) w).

Definition updateListeners (w : World) : World :=
  (* Clear out any current listeners *)
  let w := clearListeners w in
  if _isListening (directive w) then
    let w :=
      if _listenMouseDownOutside (directive w)
      then install (Global "document") "mousedown" OnMouseDown
                   set_mouseDownListener w
      else w in
    let w :=
      if _listenTouchStartOutside (directive w)
      then install (Global "document") "touchstart" OnTouchStart
                   set_touchStartListener w
      else w in
    let w :=
      if _listenMouseLeave (directive w)
      then install (Element (htmlElement (directive w))) "mouseleave"
                   OnMouseLeave set_mouseLeaveListener w
      else w in
    w
  else w.

Definition ngOnInit (w : World) : World :=
  updateListeners (with_directive (set_isInitialized true (directive w)) w).

Definition ngOnDestroy (w : World) : World :=
  clearListeners w.

(** The four [@Input] setters. *)
Definition setter
    (store : bool -> InteractOutsideDirective -> InteractOutsideDirective)
    (value : bool) (w : World) : World :=
  let w := with_directive (store value (directive w)) w in
  if isInitialized (directive w) then updateListeners w else w.

Definition isListening := setter set_isListening.
Definition listenMouseDownOutside := setter set_listenMouseDownOutside.
Definition listenTouchStartOutside := setter set_listenTouchStartOutside.
Definition listenMouseLeave := setter set_listenMouseLeave.

Definition emit_interactOutside (e : Event) (w : World) : World :=
  mkWorld (directive w) (renderer w) (interactOutsideEvent w ++ [e])
          (mouseLeaveEvent w).

Definition emit_mouseLeave (e : Event) (w : World) : World :=
  mkWorld (directive w) (renderer w) (interactOutsideEvent w)
          (mouseLeaveEvent w ++ [e]).

(** The handlers take [None] for a [null] event. *)
Definition handleMouseDown (event : option Event) (w : World) : World :=
  match event with
  | Some ev =>
      match target ev with
      | Some t =>
          if negb (contains (htmlElement (directive w)) t)
          then emit_interactOutside ev w
          else w
      | None => w
      end
  | None => w
  end.

Definition handleTouchStart (event : option Event) (w : World) : World :=
  match event with
  | Some ev =>
      match changedTouches ev with
      | Some (first :: _) =>
          (* length is not 0; first is changedTouches[0] *)
          match first with
          | Some touch =>
              match touch_target touch with
              | Some t =>
                  if negb (contains (htmlElement (directive w)) t)
                  then emit_interactOutside ev w
                  else w
              | None => w
              end
          | None => w
          end
      | Some [] => w
      | None => w
      end
  | None => w
  end.

Definition truthy {A : Type} (x : option A) : bool :=
  match x with Some _ => true | None => false end.

Definition handleMouseLeave (event : option Event) (w : World) : World :=
  match event with
  | Some ev =>
      (* Chrome fast clicking triggering false positive mouseleave events *)
      if truthy (relatedTarget ev) || truthy (toElement ev)
      then emit_mouseLeave ev w
      else w
  | None => w
  end.

Definition currentState (w : World) : CurrentState :=
  let d := directive w in
  mkCurrentState (_isListening d) (_listenMouseDownOutside d)
    (_listenTouchStartOutside d) (_listenMouseLeave d)
    (negb (truthy (mouseDownListener d))
     && negb (truthy (touchStartListener d))
     && negb (truthy (mouseLeaveListener d))).

(** ** Dispatch *)

(** Whether an event dispatched on node [n] passes a listener's target:
    the node itself, or an ancestor when the event bubbles.  The document
    is an ancestor of every node, the window of the document. *)
Definition reaches (t : ListenTarget) (n : Node) (ev : Event) : bool :=
  match t with
  | Global name =>
      if String.eqb name "document" then Node_eqb document n || bubbles ev
      else if String.eqb name "window" then bubbles ev
      else false
  | Element e => Node_eqb e n || (bubbles ev && contains e n)
  end.

(** The body of each registered arrow function. *)
Definition invoke (cb : Callback) (ev : Event) (w : World) : World :=
  match cb with
  | OnMouseDown => handleMouseDown (Some ev) w
  | OnTouchStart => handleTouchStart (Some ev) w
  | OnMouseLeave => handleMouseLeave (Some ev) w
  end.

Definition deliver (n : Node) (ev : Event) (w : World) (l : Listener) : World :=
  if String.eqb (eventName l) (type ev) && reaches (listenTarget l) n ev
  then invoke (callback l) ev w
  else w.

(** [n.dispatchEvent(ev)]: the event gets [n] as its target and is handed
    to every listener registered when the dispatch starts. *)
Definition dispatchEvent (n : Node) (ev : Event) (w : World) : World :=
  let ev := with_target n ev in
  fold_left (deliver n ev) (listeners (renderer w)) w.

(** ** What a caller can do *)

Inductive Op :=
| NgOnInit
| NgOnDestroy
| SetIsListening (value : bool)
| SetListenMouseDownOutside (value : bool)
| SetListenTouchStartOutside (value : bool)
| SetListenMouseLeave (value : bool)
| DispatchEvent (n : Node) (ev : Event).

Definition step (w : World) (op : Op) : World :=
  match op with
  | NgOnInit => ngOnInit w
  | NgOnDestroy => ngOnDestroy w
  | SetIsListening v => isListening v w
  | SetListenMouseDownOutside v => listenMouseDownOutside v w
  | SetListenTouchStartOutside v => listenTouchStartOutside v w
  | SetListenMouseLeave v => listenMouseLeave v w
  | DispatchEvent n ev => dispatchEvent n ev w
  end.

Definition run (ops : list Op) (w : World) : World := fold_left step ops w.

(** ** Reading the three subscriptions uniformly *)

(** The field that retains the function returned by [listen] for a kind. *)
Definition handle (k : Callback) (d : InteractOutsideDirective) : option nat :=
  match k with
  | OnMouseDown => mouseDownListener d
  | OnTouchStart => touchStartListener d
  | OnMouseLeave => mouseLeaveListener d
  end.

(** The input that enables a kind. *)
Definition flag (k : Callback) (d : InteractOutsideDirective) : bool :=
  match k with
  | OnMouseDown => _listenMouseDownOutside d
  | OnTouchStart => _listenTouchStartOutside d
  | OnMouseLeave => _listenMouseLeave d
  end.

(** The registration [updateListeners] makes for a kind. *)
Definition subscription (k : Callback) (d : InteractOutsideDirective)
    (id : nat) : Listener :=
  match k with
  | OnMouseDown => mkListener id (Global "document") "mousedown" OnMouseDown
  | OnTouchStart => mkListener id (Global "document") "touchstart" OnTouchStart
  | OnMouseLeave =>
      mkListener id (Element (htmlElement d)) "mouseleave" OnMouseLeave
  end.

(** The registration a retained function stands for, if one is retained. *)
Definition held (k : Callback) (d : InteractOutsideDirective) : list Listener :=
  match handle k d with
  | Some id => [subscription k d id]
  | None => []
  end.

(** The registrations of a kind that the renderer really has. *)
Definition installed (k : Callback) (w : World) : list Listener :=
  filter (fun l => Callback_eqb (callback l) k) (listeners (renderer w)).

(** The renderer has exactly what the directive retains. *)
Definition owns_all (w : World) : Prop :=
  listeners (renderer w) =
  held OnMouseDown (directive w) ++ held OnTouchStart (directive w)
    ++ held OnMouseLeave (directive w).

(** The operations after which [updateListeners] has run. *)
Definition rederives (op : Op) (w : World) : bool :=
  match op with
  | NgOnInit => true
  | NgOnDestroy => false
  | DispatchEvent _ _ => false
  | SetIsListening _ | SetListenMouseDownOutside _
  | SetListenTouchStartOutside _ | SetListenMouseLeave _ =>
      isInitialized (directive w)
  end.

Definition is_update (op : Op) : bool :=
  match op with
  | SetIsListening _ | SetListenMouseDownOutside _
  | SetListenTouchStartOutside _ | SetListenMouseLeave _ => true
  | _ => false
  end.

Definition is_dispatch (op : Op) : bool :=
  match op with DispatchEvent _ _ => true | _ => false end.

Definition is_destroy (op : Op) : bool :=
  match op with NgOnDestroy => true | _ => false end.

(** An update that writes the value the field already has. *)
Definition same_value (op : Op) (w : World) : bool :=
  match op with
  | SetIsListening v => Bool.eqb v (_isListening (directive w))
  | SetListenMouseDownOutside v =>
      Bool.eqb v (_listenMouseDownOutside (directive w))
  | SetListenTouchStartOutside v =>
      Bool.eqb v (_listenTouchStartOutside (directive w))
  | SetListenMouseLeave v => Bool.eqb v (_listenMouseLeave (directive w))
  | _ => false
  end.

(** The directive with the three retained functions dropped. *)
Definition forget (d : InteractOutsideDirective) : InteractOutsideDirective :=
  set_mouseLeaveListener None
    (set_touchStartListener None (set_mouseDownListener None d)).

(** ** Derived notions used in the statements *)

(** What [updateListeners] leaves behind, written out. *)
Definition rederived (w : World) : World :=
  let d := forget (directive w) in
  let n := nextId (renderer w) in
  let on k := _isListening d && flag k d in
  let n1 := if on OnMouseDown then S n else n in
  let n2 := if on OnTouchStart then S n1 else n1 in
  let n3 := if on OnMouseLeave then S n2 else n2 in
  let d' :=
    set_mouseLeaveListener (if on OnMouseLeave then Some n2 else None)
      (set_touchStartListener (if on OnTouchStart then Some n1 else None)
         (set_mouseDownListener (if on OnMouseDown then Some n else None) d)) in
  mkWorld d'
    (mkRenderer n3 (held OnMouseDown d' ++ held OnTouchStart d'
                      ++ held OnMouseLeave d'))
    (interactOutsideEvent w) (mouseLeaveEvent w).

(** What an operation writes into the directive before it re-derives. *)
Definition written (op : Op) (d : InteractOutsideDirective)
    : InteractOutsideDirective :=
  match op with
  | NgOnInit => set_isInitialized true d
  | SetIsListening v => set_isListening v d
  | SetListenMouseDownOutside v => set_listenMouseDownOutside v d
  | SetListenTouchStartOutside v => set_listenTouchStartOutside v d
  | SetListenMouseLeave v => set_listenMouseLeave v d
  | NgOnDestroy | DispatchEvent _ _ => d
  end.

(** [event.changedTouches[0]] when the list is there and not empty. *)
Definition firstChangedTouch (ev : Event) : option Touch :=
  match changedTouches ev with
  | Some (first :: _) => first
  | Some [] | None => None
  end.

(** Nothing registered and nothing retained. *)
Definition silent (w : World) : Prop :=
  listeners (renderer w) = [] /\ forall k, handle k (directive w) = None.

(** The retained functions are those of the current configuration. *)
Definition synced (w : World) : Prop :=
  forall k, truthy (handle k (directive w)) =
            _isListening (directive w) && flag k (directive w).

Definition is_init (op : Op) : bool :=
  match op with NgOnInit => true | _ => false end.

(** The reading of [ngOnDestroy] under which the directive is inactive for
    good: whatever updates and events follow, nothing is registered again
    and neither emitter emits. *)
Definition destroy_is_permanent : Prop :=
  forall (el : Node) (ops after : list Op),
    forallb (fun op => is_update op || is_dispatch op) after = true ->
    listeners (renderer (run after (ngOnDestroy (run ops (construct el))))) = []
    /\ interactOutsideEvent
         (run after (ngOnDestroy (run ops (construct el)))) =
       interactOutsideEvent (ngOnDestroy (run ops (construct el)))
    /\ mouseLeaveEvent
         (run after (ngOnDestroy (run ops (construct el)))) =
       mouseLeaveEvent (ngOnDestroy (run ops (construct el))).

(** The reading under which every such write made once the directive is
    initialised leaves [currentState] as it was. *)
Definition same_value_is_noop_once_initialized : Prop :=
  forall (el : Node) (ops : list Op) (op : Op),
    isInitialized (directive (run ops (construct el))) = true ->
    same_value op (run ops (construct el)) = true ->
    currentState (step (run ops (construct el)) op) =
    currentState (run ops (construct el)).

(** ** Notions used for whole dispatches and whole histories *)

(** The four inputs as [currentState] shows them. *)
Definition config (d : InteractOutsideDirective) : bool * bool * bool * bool :=
  (_isListening d, _listenMouseDownOutside d, _listenTouchStartOutside d,
   _listenMouseLeave d).

(** The input a setter writes, numbered in the order of the source. *)
Definition input_of (op : Op) : option nat :=
  match op with
  | SetIsListening _ => Some 0
  | SetListenMouseDownOutside _ => Some 1
  | SetListenTouchStartOutside _ => Some 2
  | SetListenMouseLeave _ => Some 3
  | NgOnInit | NgOnDestroy | DispatchEvent _ _ => None
  end.

(** The test of [handleMouseDown]: a target the host does not contain. *)
Definition target_outside (el : Node) (ev : Event) : bool :=
  match target ev with
  | Some t => negb (contains el t)
  | None => false
  end.

(** The test of [handleTouchStart]: [changedTouches[0]] has a target the
    host does not contain. *)
Definition touch_outside (el : Node) (ev : Event) : bool :=
  match firstChangedTouch ev with
  | Some touch =>
      match touch_target touch with
      | Some t => negb (contains el t)
      | None => false
      end
  | None => false
  end.

(** The test of [handleMouseLeave]. *)
Definition leave_evidence (ev : Event) : bool :=
  truthy (relatedTarget ev) || truthy (toElement ev).

(** What an event on [interactOutsideEvent] must look like. *)
Definition outside_interaction (el : Node) (ev : Event) : bool :=
  (String.eqb (type ev) "mousedown" && target_outside el ev)
  || (String.eqb (type ev) "touchstart" && touch_outside el ev).

(** What an event on [mouseLeaveEvent] must look like: it was dispatched
    on the host or below it. *)
Definition leave_of_host (el : Node) (ev : Event) : bool :=
  String.eqb (type ev) "mouseleave" && leave_evidence ev
  && match target ev with
     | Some t => contains el t
     | None => false
     end.

(** How many values the two outputs have emitted together. *)
Definition emissions (w : World) : nat :=
  List.length (interactOutsideEvent w) + List.length (mouseLeaveEvent w).

(** A dispatch read by event name: the one handler that can hear it. *)
Definition dispatch_by_name (n : Node) (ev : Event) (w : World) : World :=
  let d := directive w in
  let ev' := with_target n ev in
  if String.eqb "mousedown" (type ev) then
    if truthy (mouseDownListener d) && reaches (Global "document") n ev'
    then handleMouseDown (Some ev') w else w
  else if String.eqb "touchstart" (type ev) then
    if truthy (touchStartListener d) && reaches (Global "document") n ev'
    then handleTouchStart (Some ev') w else w
  else if String.eqb "mouseleave" (type ev) then
    if truthy (mouseLeaveListener d)
       && reaches (Element (htmlElement d)) n ev'
    then handleMouseLeave (Some ev') w else w
  else w.

(** [listenersCleared] as the configuration alone predicts it. *)
Definition cleared_by_config (d : InteractOutsideDirective) : bool :=
  negb (_isListening d && _listenMouseDownOutside d)
  && negb (_isListening d && _listenTouchStartOutside d)
  && negb (_isListening d && _listenMouseLeave d).

(** The four inputs as a caller reads them back. *)
Definition inputs_read (c : CurrentState) : bool * bool * bool * bool :=
  (cs_isListening c, cs_listenMouseDownOutside c,
   cs_listenTouchStartOutside c, cs_listenMouseLeave c).

(** Every value emitted so far is one the handlers would emit for a host
    [el]. *)
Definition sound_outputs (el : Node) (w : World) : Prop :=
  Forall (fun e => outside_interaction el e = true) (interactOutsideEvent w)
  /\ Forall (fun e => leave_of_host el e = true) (mouseLeaveEvent w).

(** A registration is one of the three that [updateListeners] makes. *)
Definition well_formed (el : Node) (l : Listener) : bool :=
  match callback l with
  | OnMouseDown =>
      String.eqb (eventName l) "mousedown"
      && match listenTarget l with
         | Global name => String.eqb name "document"
         | Element _ => false
         end
  | OnTouchStart =>
      String.eqb (eventName l) "touchstart"
      && match listenTarget l with
         | Global name => String.eqb name "document"
         | Element _ => false
         end
  | OnMouseLeave =>
      String.eqb (eventName l) "mouseleave"
      && match listenTarget l with
         | Global _ => false
         | Element e => Node_eqb e el
         end
  end.

(** The one write that switches the directive on. *)
Definition turns_on (op : Op) : bool :=
  match op with
  | SetIsListening true => true
  | _ => false
  end.

(** ** The fixture of the test suite *)

Module Fixture.
Definition parent : Node := [0].
Definition firstSibling : Node := [0; 0].
Definition target_ : Node := [0; 1].
Definition child : Node := [0; 1; 0].
Definition lastSibling : Node := [0; 2].

Definition me : Event :=
  mkEvent "mousedown" true None None None None None None.

Definition ml : Event :=
  mkEvent "mouseleave" true None None (Some lastSibling) None None None.

Definition ml_bare : Event :=
  mkEvent "mouseleave" true None None None None None None.

(** What [dispatchTouchEvent(touchTarget, 'touchstart')] builds. *)
Definition te (touchTarget : Node) : Event :=
  mkEvent "touchstart" true None None None None None
          (Some [Some (mkTouch (Some touchTarget))]).

(** A touch that starts on the sibling while an older touch still rests
    on the target. *)
Definition te_stale : Event :=
  mkEvent "touchstart" true None None None
          (Some [Some (mkTouch (Some target_));
                 Some (mkTouch (Some lastSibling))])
          (Some [Some (mkTouch (Some target_))])
          (Some [Some (mkTouch (Some lastSibling))]).

(** [fixture.detectChanges()] on first call: the four bound inputs are
    written, then [ngOnInit] runs. *)
Definition detectChanges_first (l md ts lv : bool) : list Op :=
  [SetIsListening l; SetListenMouseDownOutside md;
   SetListenTouchStartOutside ts; SetListenMouseLeave lv; NgOnInit].

(** The first change detection with every input bound to [true], then
    one input toggled back and forth and written again. *)
Definition toggled : list Op :=
  detectChanges_first true true true true
  ++ [SetListenTouchStartOutside false; SetListenTouchStartOutside true;
      SetListenTouchStartOutside true].

(** What may happen before the first change detection: an input is
    written, an event passes, the host is destroyed unused. *)
Definition early : list Op :=
  [SetListenMouseLeave true; DispatchEvent parent me; NgOnDestroy;
   SetIsListening false].

(** The world after the first change detection of the test component. *)
Definition started : World :=
  run (detectChanges_first true true true true) (construct target_).

(** How many times each output has emitted. *)
Definition counts (w : World) : nat * nat :=
  (List.length (interactOutsideEvent w), List.length (mouseLeaveEvent w)).

Definition mousedown (n : Node) : Op := DispatchEvent n me.
Definition touchstart (n : Node) : Op := DispatchEvent n (te n).
Definition mouseleave (n : Node) : Op := DispatchEvent n ml.
End Fixture.

(** * Proofs *)

(** ** Containment *)

Lemma contains_refl (n : Node) : contains n n = true.
Proof.
  induction n as [|i n IH]; simpl; [reflexivity|].
  now rewrite Nat.eqb_refl, IH.
Qed.

Lemma contains_document (n : Node) : contains document n = true.
Proof. reflexivity. Qed.

Lemma contains_trans (a b c : Node) :
  contains a b = true -> contains b c = true -> contains a c = true.
Proof.
  revert b c; induction a as [|i a IH]; intros [|j b] [|k c]; simpl;
    try reflexivity; try discriminate.
  rewrite !andb_true_iff, !Nat.eqb_eq.
  intros [-> Hab] [-> Hbc]; split; [reflexivity | eauto].
Qed.

(** ** The handlers only emit *)

Ltac handler_cases :=
  repeat match goal with
         | |- context [match ?x with _ => _ end] => destruct x; simpl
         end.

Lemma handleMouseDown_frame (e : option Event) (w : World) :
  directive (handleMouseDown e w) = directive w /\
  renderer (handleMouseDown e w) = renderer w.
Proof. unfold handleMouseDown; handler_cases; split; reflexivity. Qed.

Lemma handleTouchStart_frame (e : option Event) (w : World) :
  directive (handleTouchStart e w) = directive w /\
  renderer (handleTouchStart e w) = renderer w.
Proof. unfold handleTouchStart; handler_cases; split; reflexivity. Qed.

Lemma handleMouseLeave_frame (e : option Event) (w : World) :
  directive (handleMouseLeave e w) = directive w /\
  renderer (handleMouseLeave e w) = renderer w.
Proof. unfold handleMouseLeave; handler_cases; split; reflexivity. Qed.

Lemma deliver_frame (n : Node) (ev : Event) (w : World) (l : Listener) :
  directive (deliver n ev w l) = directive w /\
  renderer (deliver n ev w l) = renderer w.
Proof.
  unfold deliver.
  destruct (_ && _); [|split; reflexivity].
  unfold invoke; destruct (callback l).
  - apply handleMouseDown_frame.
  - apply handleTouchStart_frame.
  - apply handleMouseLeave_frame.
Qed.

Lemma fold_deliver_frame (n : Node) (ev : Event) (ls : list Listener) :
  forall w,
    directive (fold_left (deliver n ev) ls w) = directive w /\
    renderer (fold_left (deliver n ev) ls w) = renderer w.
Proof.
  induction ls as [|l ls IH]; intros w; simpl; [split; reflexivity|].
  destruct (IH (deliver n ev w l)) as [Hd Hr].
  destruct (deliver_frame n ev w l) as [Hd' Hr'].
  split; congruence.
Qed.

Lemma dispatchEvent_frame (n : Node) (ev : Event) (w : World) :
  directive (dispatchEvent n ev w) = directive w /\
  renderer (dispatchEvent n ev w) = renderer w.
Proof. apply fold_deliver_frame. Qed.

(** With nothing registered a dispatch reaches nobody. *)
Lemma dispatchEvent_unheard (n : Node) (ev : Event) (w : World) :
  listeners (renderer w) = [] -> dispatchEvent n ev w = w.
Proof. unfold dispatchEvent; intros ->; reflexivity. Qed.

(** ** Clearing and re-deriving *)

Lemma clearListeners_frame (w : World) :
  directive (clearListeners w) = forget (directive w) /\
  nextId (renderer (clearListeners w)) = nextId (renderer w) /\
  interactOutsideEvent (clearListeners w) = interactOutsideEvent w /\
  mouseLeaveEvent (clearListeners w) = mouseLeaveEvent w.
Proof.
  unfold clearListeners, call_if_set; simpl.
  repeat split.
  destruct (mouseDownListener _), (touchStartListener _),
    (mouseLeaveListener _); reflexivity.
Qed.

(** Calling the retained functions empties a renderer that has nothing but
    their registrations. *)
Lemma clearListeners_empties (w : World) :
  owns_all w -> listeners (renderer (clearListeners w)) = [].
Proof.
  unfold owns_all, clearListeners, held, call_if_set, handle.
  destruct w as [d r io lv]; simpl.
  destruct r as [next ls]; simpl; intros ->.
  destruct (mouseDownListener d) as [a|], (touchStartListener d) as [b|],
    (mouseLeaveListener d) as [c|]; simpl;
    rewrite ?Nat.eqb_refl; simpl;
    repeat match goal with
           | |- context [Nat.eqb ?x ?y] =>
               destruct (Nat.eqb x y); simpl; rewrite ?Nat.eqb_refl; simpl
           end;
    reflexivity.
Qed.

Lemma clearListeners_owned (w : World) :
  owns_all w ->
  clearListeners w =
  mkWorld (forget (directive w)) (mkRenderer (nextId (renderer w)) [])
          (interactOutsideEvent w) (mouseLeaveEvent w).
Proof.
  intros H.
  pose proof (clearListeners_empties w H) as He.
  destruct (clearListeners_frame w) as (Hd & Hn & Hi & Hl).
  destruct (clearListeners w) as [d' [n' ls'] io' lv']; simpl in *.
  congruence.
Qed.

Lemma updateListeners_owned (w : World) :
  owns_all w -> updateListeners w = rederived w.
Proof.
  intros H; unfold updateListeners; rewrite (clearListeners_owned w H).
  destruct w as [d r io lv]; destruct d as [l md ts lv' el ini h1 h2 h3].
  destruct l, md, ts, lv'; reflexivity.
Qed.

Lemma rederived_owns_all (w : World) : owns_all (rederived w).
Proof. reflexivity. Qed.

Lemma written_owns_all (op : Op) (w : World) :
  owns_all w -> owns_all (with_directive (written op (directive w)) w).
Proof. unfold owns_all; destruct op; simpl; intros ->; reflexivity. Qed.

Lemma step_rederives (w : World) (op : Op) :
  owns_all w -> rederives op w = true ->
  step w op = rederived (with_directive (written op (directive w)) w).
Proof.
  intros H Hr.
  pose proof (written_owns_all op w H) as H'.
  destruct op; simpl in Hr; try discriminate; simpl;
    unfold ngOnInit, isListening, listenMouseDownOutside,
      listenTouchStartOutside, listenMouseLeave, setter; simpl;
    rewrite ?Hr; apply updateListeners_owned; exact H'.
Qed.

Lemma isListening_rederives (w : World) (v : bool) :
  owns_all w -> isInitialized (directive w) = true ->
  isListening v w =
  rederived (with_directive (written (SetIsListening v) (directive w)) w).
Proof. intros H Hi; exact (step_rederives w (SetIsListening v) H Hi). Qed.

(** An update before [ngOnInit] only stores the value. *)
Lemma step_stores (w : World) (op : Op) :
  is_update op = true -> isInitialized (directive w) = false ->
  step w op = with_directive (written op (directive w)) w.
Proof.
  intros Hu Hi.
  destruct op; simpl in Hu; try discriminate; simpl;
    unfold isListening, listenMouseDownOutside, listenTouchStartOutside,
      listenMouseLeave, setter; simpl; rewrite Hi; reflexivity.
Qed.

Lemma step_owns_all (w : World) (op : Op) : owns_all w -> owns_all (step w op).
Proof.
  intros H.
  destruct (rederives op w) eqn:Hr.
  - rewrite (step_rederives w op H Hr); apply rederived_owns_all.
  - destruct op; simpl in Hr; try discriminate.
    + change (step w NgOnDestroy) with (clearListeners w).
      rewrite (clearListeners_owned w H); reflexivity.
    + rewrite step_stores by (reflexivity || assumption).
      now apply written_owns_all.
    + rewrite step_stores by (reflexivity || assumption).
      now apply written_owns_all.
    + rewrite step_stores by (reflexivity || assumption).
      now apply written_owns_all.
    + rewrite step_stores by (reflexivity || assumption).
      now apply written_owns_all.
    + simpl; unfold owns_all in *.
      destruct (dispatchEvent_frame n ev w) as [-> ->]; exact H.
Qed.

Lemma run_app (ops ops' : list Op) (w : World) :
  run (ops ++ ops') w = run ops' (run ops w).
Proof. apply fold_left_app. Qed.

Lemma run_owns_all (ops : list Op) :
  forall w, owns_all w -> owns_all (run ops w).
Proof.
  induction ops as [|op ops IH]; intros w H; simpl; [exact H|].
  apply IH, step_owns_all, H.
Qed.

Lemma reachable_owns_all (el : Node) (ops : list Op) :
  owns_all (run ops (construct el)).
Proof. apply run_owns_all; reflexivity. Qed.

(** The re-derived world holds one registration per enabled kind and
    nothing else. *)
Lemma rederived_exact (w : World) :
  (forall k, truthy (handle k (directive (rederived w))) =
             _isListening (directive (rederived w))
             && flag k (directive (rederived w))) /\
  (forall k, installed k (rederived w) = held k (directive (rederived w))) /\
  NoDup (map unlistenId (listeners (renderer (rederived w)))).
Proof.
  destruct w as [d r io lv]; destruct d as [l md ts lv' el ini h1 h2 h3].
  destruct r as [n ls].
  split; [|split].
  - intros k; destruct k, l, md, ts, lv'; reflexivity.
  - intros k; destruct k, l, md, ts, lv'; reflexivity.
  - destruct l, md, ts, lv'; simpl;
      repeat (constructor; simpl; try (intros F; lia)).
Qed.

Lemma rederived_config (w : World) :
  _isListening (directive (rederived w)) = _isListening (directive w) /\
  (forall k, flag k (directive (rederived w)) = flag k (directive w)) /\
  htmlElement (directive (rederived w)) = htmlElement (directive w) /\
  isInitialized (directive (rederived w)) = isInitialized (directive w) /\
  interactOutsideEvent (rederived w) = interactOutsideEvent w /\
  mouseLeaveEvent (rederived w) = mouseLeaveEvent w.
Proof.
  repeat split.
Qed.

(** ** C1 *)

(** C1. Once the directive is initialised, every run of [updateListeners]
    (by [ngOnInit] or by any of the four setters) leaves, for each of the
    three kinds, a retained function exactly when [_isListening] and the
    kind's flag are both true; the renderer then has, for each kind,
    exactly the registration that the retained function stands for (one or
    none), and no two registrations share a removal function. *)
Theorem updateListeners_exact (el : Node) (ops : list Op) (op : Op) :
  rederives op (run ops (construct el)) = true ->
  let w' := step (run ops (construct el)) op in
  isInitialized (directive w') = true /\
  (forall k, truthy (handle k (directive w')) =
             _isListening (directive w') && flag k (directive w')) /\
  (forall k, installed k w' = held k (directive w')) /\
  NoDup (map unlistenId (listeners (renderer w'))).
Proof.
  intros Hr w'; subst w'.
  rewrite (step_rederives _ op (reachable_owns_all el ops) Hr).
  split; [|apply rederived_exact].
  destruct (rederived_config
              (with_directive (written op (directive (run ops (construct el))))
                 (run ops (construct el)))) as (_ & _ & _ & -> & _).
  destruct op; simpl in *; try discriminate; auto.
Qed.

Lemma updateListeners_exact_witness :
  rederives (SetListenMouseLeave false)
            (run Fixture.toggled (construct Fixture.target_)) = true /\
  isInitialized
    (directive (step (run Fixture.toggled (construct Fixture.target_))
                     (SetListenMouseLeave false))) = true /\
  (forall k,
      truthy (handle k (directive
                (step (run Fixture.toggled (construct Fixture.target_))
                      (SetListenMouseLeave false)))) =
      _isListening (directive
                (step (run Fixture.toggled (construct Fixture.target_))
                      (SetListenMouseLeave false)))
      && flag k (directive
                (step (run Fixture.toggled (construct Fixture.target_))
                      (SetListenMouseLeave false)))) /\
  (forall k,
      installed k (step (run Fixture.toggled (construct Fixture.target_))
                        (SetListenMouseLeave false)) =
      held k (directive
                (step (run Fixture.toggled (construct Fixture.target_))
                      (SetListenMouseLeave false)))) /\
  NoDup (map unlistenId
           (listeners (renderer
              (step (run Fixture.toggled (construct Fixture.target_))
                    (SetListenMouseLeave false))))).
Proof.
  split; [reflexivity|].
  apply (updateListeners_exact Fixture.target_ Fixture.toggled
           (SetListenMouseLeave false)); reflexivity.
Defined.

(** ** C3, C4, C5: classification *)

(** C3. [handleMouseDown] on an event whose target is a node the host does
    not contain emits that event once on [interactOutsideEvent] and does
    nothing else; on an event whose target the host contains (the host
    itself included) it does nothing; on an event without target, or
    without event at all, it does nothing. *)
Theorem handleMouseDown_classifies (w : World) (ev : Event) :
  (forall n, target ev = Some n ->
             contains (htmlElement (directive w)) n = false ->
             handleMouseDown (Some ev) w = emit_interactOutside ev w /\
             interactOutsideEvent (handleMouseDown (Some ev) w) =
               interactOutsideEvent w ++ [ev] /\
             mouseLeaveEvent (handleMouseDown (Some ev) w) =
               mouseLeaveEvent w) /\
  (forall n, target ev = Some n ->
             contains (htmlElement (directive w)) n = true ->
             handleMouseDown (Some ev) w = w) /\
  (target ev = Some (htmlElement (directive w)) ->
   handleMouseDown (Some ev) w = w) /\
  (target ev = None -> handleMouseDown (Some ev) w = w) /\
  handleMouseDown None w = w.
Proof.
  unfold handleMouseDown; split; [|split; [|split; [|split]]].
  - intros n -> ->; repeat split.
  - intros n -> ->; reflexivity.
  - intros ->; rewrite contains_refl; reflexivity.
  - intros ->; reflexivity.
  - reflexivity.
Qed.

Lemma handleMouseDown_classifies_witness :
  interactOutsideEvent
    (handleMouseDown
       (Some (with_target Fixture.firstSibling Fixture.me)) Fixture.started) =
    [with_target Fixture.firstSibling Fixture.me] /\
  handleMouseDown (Some (with_target Fixture.child Fixture.me))
                  Fixture.started = Fixture.started /\
  handleMouseDown (Some (with_target Fixture.target_ Fixture.me))
                  Fixture.started = Fixture.started /\
  handleMouseDown (Some Fixture.me) Fixture.started = Fixture.started.
Proof.
  pose proof (handleMouseDown_classifies Fixture.started
                (with_target Fixture.firstSibling Fixture.me)) as H1.
  pose proof (handleMouseDown_classifies Fixture.started
                (with_target Fixture.child Fixture.me)) as H2.
  pose proof (handleMouseDown_classifies Fixture.started
                (with_target Fixture.target_ Fixture.me)) as H3.
  pose proof (handleMouseDown_classifies Fixture.started Fixture.me) as H4.
  split; [|split; [|split]].
  - apply (proj1 H1 Fixture.firstSibling); reflexivity.
  - apply (proj1 (proj2 H2) Fixture.child); reflexivity.
  - apply (proj1 (proj2 (proj2 H3))); reflexivity.
  - apply (proj1 (proj2 (proj2 (proj2 H4)))); reflexivity.
Defined.

Lemma handleTouchStart_firstChangedTouch (w : World) (ev : Event) :
  handleTouchStart (Some ev) w =
  match firstChangedTouch ev with
  | Some touch =>
      match touch_target touch with
      | Some t =>
          if contains (htmlElement (directive w)) t then w
          else emit_interactOutside ev w
      | None => w
      end
  | None => w
  end.
Proof.
  unfold handleTouchStart, firstChangedTouch.
  destruct (changedTouches ev) as [[|[touch|] rest]|]; try reflexivity.
  destruct (touch_target touch) as [t|]; [|reflexivity].
  destruct (contains _ t); reflexivity.
Qed.

(** C4. [handleTouchStart] decides on [changedTouches[0]] alone.  With
    [changedTouches] missing or empty, with no touch at index 0, or with a
    first touch that has no target, nothing is emitted.  When the first
    changed touch has a target the host does not contain, the event is
    emitted once on [interactOutsideEvent].  Two events whose first changed
    touch is the same are treated alike, whatever [touches],
    [targetTouches] and the rest of [changedTouches] hold. *)
Theorem handleTouchStart_first_changed_only (w : World) (ev : Event) :
  (changedTouches ev = None \/ changedTouches ev = Some [] ->
   handleTouchStart (Some ev) w = w) /\
  (forall rest, changedTouches ev = Some (None :: rest) ->
                handleTouchStart (Some ev) w = w) /\
  (forall touch rest,
      changedTouches ev = Some (Some touch :: rest) ->
      touch_target touch = None ->
      handleTouchStart (Some ev) w = w) /\
  (forall touch rest t,
      changedTouches ev = Some (Some touch :: rest) ->
      touch_target touch = Some t ->
      contains (htmlElement (directive w)) t = false ->
      handleTouchStart (Some ev) w = emit_interactOutside ev w /\
      interactOutsideEvent (handleTouchStart (Some ev) w) =
        interactOutsideEvent w ++ [ev] /\
      mouseLeaveEvent (handleTouchStart (Some ev) w) = mouseLeaveEvent w) /\
  (forall ev', firstChangedTouch ev' = firstChangedTouch ev ->
      (handleTouchStart (Some ev) w = emit_interactOutside ev w /\
       handleTouchStart (Some ev') w = emit_interactOutside ev' w) \/
      (handleTouchStart (Some ev) w = w /\
       handleTouchStart (Some ev') w = w)) /\
  handleTouchStart None w = w.
Proof.
  split; [|split; [|split; [|split; [|split]]]].
  - unfold handleTouchStart; intros [-> | ->]; reflexivity.
  - unfold handleTouchStart; intros rest ->; reflexivity.
  - unfold handleTouchStart; intros touch rest -> ->; reflexivity.
  - unfold handleTouchStart; intros touch rest t -> -> ->; repeat split.
  - intros ev' Heq.
    rewrite (handleTouchStart_firstChangedTouch w ev),
      (handleTouchStart_firstChangedTouch w ev'), Heq.
    destruct (firstChangedTouch ev) as [touch|]; [|right; split; reflexivity].
    destruct (touch_target touch) as [t|]; [|right; split; reflexivity].
    destruct (contains _ t); [right | left]; split; reflexivity.
  - reflexivity.
Qed.

Lemma handleTouchStart_first_changed_only_witness :
  interactOutsideEvent (handleTouchStart (Some Fixture.te_stale)
                                         Fixture.started) =
    [Fixture.te_stale] /\
  handleTouchStart (Some Fixture.me) Fixture.started = Fixture.started /\
  handleTouchStart
    (Some (mkEvent "touchstart" true None None None None None
                   (Some [None; Some (mkTouch (Some Fixture.parent))])))
    Fixture.started = Fixture.started /\
  handleTouchStart
    (Some (mkEvent "touchstart" true None None None None None
                   (Some [Some (mkTouch None);
                          Some (mkTouch (Some Fixture.parent))])))
    Fixture.started = Fixture.started /\
  ((handleTouchStart (Some Fixture.te_stale) Fixture.started =
      emit_interactOutside Fixture.te_stale Fixture.started /\
    handleTouchStart (Some (Fixture.te Fixture.lastSibling)) Fixture.started =
      emit_interactOutside (Fixture.te Fixture.lastSibling) Fixture.started) \/
   (handleTouchStart (Some Fixture.te_stale) Fixture.started =
      Fixture.started /\
    handleTouchStart (Some (Fixture.te Fixture.lastSibling)) Fixture.started =
      Fixture.started)).
Proof.
  split; [|split; [|split; [|split]]].
  - apply (proj1 (proj2 (proj2 (proj2
             (handleTouchStart_first_changed_only
                Fixture.started Fixture.te_stale))))
             (mkTouch (Some Fixture.lastSibling)) [] Fixture.lastSibling);
      reflexivity.
  - apply (proj1 (handleTouchStart_first_changed_only
                    Fixture.started Fixture.me)).
    left; reflexivity.
  - apply (proj1 (proj2 (handleTouchStart_first_changed_only Fixture.started _))
             [Some (mkTouch (Some Fixture.parent))]).
    reflexivity.
  - apply (proj1 (proj2 (proj2
             (handleTouchStart_first_changed_only Fixture.started _)))
             (mkTouch None) [Some (mkTouch (Some Fixture.parent))]);
      reflexivity.
  - apply (proj1 (proj2 (proj2 (proj2 (proj2
             (handleTouchStart_first_changed_only
                Fixture.started Fixture.te_stale)))))
             (Fixture.te Fixture.lastSibling)).
    reflexivity.
Defined.

(** C5. [handleMouseLeave] emits the event on [mouseLeaveEvent] exactly
    when [relatedTarget] or [toElement] is not null; with both null it
    does nothing. *)
Theorem handleMouseLeave_filters (w : World) (ev : Event) :
  (handleMouseLeave (Some ev) w = emit_mouseLeave ev w /\
   mouseLeaveEvent (handleMouseLeave (Some ev) w) = mouseLeaveEvent w ++ [ev]
   <-> relatedTarget ev <> None \/ toElement ev <> None) /\
  (relatedTarget ev = None /\ toElement ev = None ->
   handleMouseLeave (Some ev) w = w) /\
  interactOutsideEvent (handleMouseLeave (Some ev) w) =
    interactOutsideEvent w.
Proof.
  unfold handleMouseLeave.
  destruct (relatedTarget ev) as [r|], (toElement ev) as [t|]; simpl;
    (split; [|split]); try reflexivity;
    try (split; [intros _; (left; discriminate) || (right; discriminate)
                | intros _; split; reflexivity]);
    try (intros [? ?]; discriminate).
  split.
  - intros [_ H]. exfalso.
    apply (f_equal (@List.length Event)) in H.
    rewrite length_app in H; simpl in H; lia.
  - intros [H | H]; congruence.
Qed.

Lemma handleMouseLeave_filters_witness :
  mouseLeaveEvent (handleMouseLeave (Some Fixture.ml) Fixture.started) =
    [Fixture.ml] /\
  handleMouseLeave (Some Fixture.ml_bare) Fixture.started = Fixture.started.
Proof.
  split.
  - apply (proj2 (proj1 (handleMouseLeave_filters
                           Fixture.started Fixture.ml))).
    right; discriminate.
  - apply (proj1 (proj2 (handleMouseLeave_filters
                           Fixture.started Fixture.ml_bare))).
    split; reflexivity.
Defined.

(** ** C10: the handlers are read-only *)

(** C10. None of [handleMouseDown], [handleTouchStart] and
    [handleMouseLeave] changes the directive (the four flags, the three
    retained functions, [isInitialized]) or the renderer, so
    [currentState] reads the same before and after, whether or not the
    handler emitted; the same holds for a whole dispatch. *)
Theorem handlers_read_only (event : option Event) (w : World) :
  (directive (handleMouseDown event w) = directive w /\
   renderer (handleMouseDown event w) = renderer w /\
   currentState (handleMouseDown event w) = currentState w) /\
  (directive (handleTouchStart event w) = directive w /\
   renderer (handleTouchStart event w) = renderer w /\
   currentState (handleTouchStart event w) = currentState w) /\
  (directive (handleMouseLeave event w) = directive w /\
   renderer (handleMouseLeave event w) = renderer w /\
   currentState (handleMouseLeave event w) = currentState w) /\
  (forall n ev,
      directive (dispatchEvent n ev w) = directive w /\
      renderer (dispatchEvent n ev w) = renderer w /\
      currentState (dispatchEvent n ev w) = currentState w).
Proof.
  unfold currentState.
  destruct (handleMouseDown_frame event w) as [Hd1 Hr1].
  destruct (handleTouchStart_frame event w) as [Hd2 Hr2].
  destruct (handleMouseLeave_frame event w) as [Hd3 Hr3].
  rewrite Hd1, Hd2, Hd3.
  repeat split; try assumption;
    destruct (dispatchEvent_frame n ev w) as [Hd Hr]; rewrite ?Hd; auto.
Qed.

(** ** Worlds without subscriptions *)

Lemma silent_owns_all (w : World) : silent w -> owns_all w.
Proof.
  intros [Hl Hh]; unfold owns_all, held.
  now rewrite Hl, !Hh.
Qed.

Lemma clearListeners_silent (w : World) : silent w -> clearListeners w = w.
Proof.
  intros H; rewrite (clearListeners_owned w (silent_owns_all w H)).
  destruct H as [Hl Hh].
  pose proof (Hh OnMouseDown) as H1; pose proof (Hh OnTouchStart) as H2;
    pose proof (Hh OnMouseLeave) as H3.
  destruct w as [d [n ls] io lv]; destruct d; simpl in *; subst; reflexivity.
Qed.

Lemma silent_listenersCleared (w : World) :
  silent w -> listenersCleared (currentState w) = true.
Proof.
  intros [_ Hh].
  pose proof (Hh OnMouseDown) as H1; pose proof (Hh OnTouchStart) as H2;
    pose proof (Hh OnMouseLeave) as H3.
  unfold currentState, handle in *; cbn [listenersCleared].
  now rewrite H1, H2, H3.
Qed.

Lemma clearListeners_makes_silent (w : World) :
  owns_all w -> silent (clearListeners w).
Proof.
  intros H; rewrite (clearListeners_owned w H); split; [reflexivity|].
  intros k; destruct k; reflexivity.
Qed.

Lemma quiet_step (w : World) (op : Op) :
  silent w -> is_destroy op || is_dispatch op = true -> step w op = w.
Proof.
  intros H Hq; destruct op; simpl in Hq; try discriminate; simpl.
  - change (clearListeners w = w); apply clearListeners_silent, H.
  - apply dispatchEvent_unheard, H.
Qed.

Lemma quiet_run (ops : list Op) (w : World) :
  silent w -> forallb (fun op => is_destroy op || is_dispatch op) ops = true ->
  run ops w = w.
Proof.
  intros H; induction ops as [|op ops IH]; simpl; [reflexivity|].
  rewrite andb_true_iff; intros [Hq Hqs].
  rewrite (quiet_step w op H Hq); auto.
Qed.

Lemma step_initialized (w : World) (op : Op) :
  owns_all w ->
  isInitialized (directive (step w op)) =
  isInitialized (directive w) || is_init op.
Proof.
  intros H.
  destruct (rederives op w) eqn:Hr.
  - rewrite (step_rederives w op H Hr).
    destruct (rederived_config (with_directive (written op (directive w)) w))
      as (_ & _ & _ & -> & _).
    destruct op; simpl in *; try discriminate;
      rewrite ?Hr, ?orb_true_r; reflexivity.
  - destruct op; simpl in Hr; try discriminate.
    + change (step w NgOnDestroy) with (clearListeners w).
      rewrite (clearListeners_owned w H); simpl.
      now rewrite orb_false_r.
    + rewrite step_stores by (reflexivity || assumption).
      simpl; now rewrite orb_false_r.
    + rewrite step_stores by (reflexivity || assumption).
      simpl; now rewrite orb_false_r.
    + rewrite step_stores by (reflexivity || assumption).
      simpl; now rewrite orb_false_r.
    + rewrite step_stores by (reflexivity || assumption).
      simpl; now rewrite orb_false_r.
    + simpl; destruct (dispatchEvent_frame n ev w) as [-> _].
      now rewrite orb_false_r.
Qed.

(** Before [ngOnInit] nothing is registered or retained. *)
Lemma step_dormant (w : World) (op : Op) :
  owns_all w ->
  (isInitialized (directive w) = false -> silent w) ->
  isInitialized (directive (step w op)) = false -> silent (step w op).
Proof.
  intros H Hs Hi.
  rewrite (step_initialized w op H) in Hi.
  apply orb_false_iff in Hi; destruct Hi as [Hi Hop].
  specialize (Hs Hi).
  destruct op; simpl in Hop; try discriminate.
  - change (step w NgOnDestroy) with (clearListeners w).
    now rewrite clearListeners_silent.
  - now rewrite step_stores.
  - now rewrite step_stores.
  - now rewrite step_stores.
  - now rewrite step_stores.
  - simpl; now rewrite dispatchEvent_unheard by apply Hs.
Qed.

Lemma run_dormant (ops : list Op) :
  forall w, owns_all w ->
            (isInitialized (directive w) = false -> silent w) ->
            isInitialized (directive (run ops w)) = false ->
            silent (run ops w).
Proof.
  induction ops as [|op ops IH]; intros w H Hs; simpl; [exact Hs|].
  apply IH; [apply step_owns_all, H | apply step_dormant; assumption].
Qed.

Lemma reachable_dormant (el : Node) (ops : list Op) :
  isInitialized (directive (run ops (construct el))) = false ->
  silent (run ops (construct el)).
Proof.
  apply run_dormant; [reflexivity|].
  intros _; split; [reflexivity | intros k; destruct k; reflexivity].
Qed.

(** Without [ngOnDestroy], an initialised directive retains what its
    configuration asks for. *)
Lemma step_synced (w : World) (op : Op) :
  owns_all w ->
  (isInitialized (directive w) = true -> synced w) ->
  is_destroy op = false ->
  isInitialized (directive (step w op)) = true -> synced (step w op).
Proof.
  intros H Hs Hop Hi.
  destruct (rederives op w) eqn:Hr.
  - rewrite (step_rederives w op H Hr).
    exact (proj1 (rederived_exact _)).
  - rewrite (step_initialized w op H) in Hi.
    destruct op; simpl in Hr, Hop, Hi; try discriminate;
      try (rewrite Hr in Hi; discriminate).
    rewrite orb_false_r in Hi; specialize (Hs Hi).
    unfold synced; simpl.
    destruct (dispatchEvent_frame n ev w) as [-> _]; exact Hs.
Qed.

Lemma run_synced (ops : list Op) :
  forall w, owns_all w ->
            (isInitialized (directive w) = true -> synced w) ->
            existsb is_destroy ops = false ->
            isInitialized (directive (run ops w)) = true ->
            synced (run ops w).
Proof.
  induction ops as [|op ops IH]; intros w H Hs; simpl; [intros _; exact Hs|].
  rewrite orb_false_iff; intros [Hop Hops].
  apply IH; [apply step_owns_all, H | | exact Hops].
  apply step_synced; assumption.
Qed.

Lemma reachable_synced (el : Node) (ops : list Op) :
  existsb is_destroy ops = false ->
  isInitialized (directive (run ops (construct el))) = true ->
  synced (run ops (construct el)).
Proof.
  apply run_synced; [reflexivity|]; simpl; discriminate.
Qed.

Lemma run_initialized (ops : list Op) :
  forall w, owns_all w -> isInitialized (directive w) = true ->
            isInitialized (directive (run ops w)) = true.
Proof.
  induction ops as [|op ops IH]; intros w H Hi; simpl; [exact Hi|].
  apply IH; [apply step_owns_all, H|].
  now rewrite (step_initialized w op H), Hi.
Qed.

(** Before [ngOnInit] the renderer is never called. *)
Lemma step_dormant_renderer (w : World) (op : Op) :
  owns_all w -> silent w ->
  isInitialized (directive (step w op)) = false ->
  renderer (step w op) = renderer w.
Proof.
  intros H Hs Hi.
  rewrite (step_initialized w op H) in Hi.
  apply orb_false_iff in Hi; destruct Hi as [Hi Hop].
  destruct op; simpl in Hop; try discriminate.
  - change (step w NgOnDestroy) with (clearListeners w).
    now rewrite clearListeners_silent.
  - now rewrite step_stores.
  - now rewrite step_stores.
  - now rewrite step_stores.
  - now rewrite step_stores.
  - apply dispatchEvent_frame.
Qed.

Lemma run_dormant_renderer (ops : list Op) :
  forall w, owns_all w -> silent w ->
            isInitialized (directive (run ops w)) = false ->
            renderer (run ops w) = renderer w.
Proof.
  induction ops as [|op ops IH]; intros w H Hs Hi; simpl in *; [reflexivity|].
  assert (Hstep : isInitialized (directive (step w op)) = false).
  { destruct (isInitialized (directive (step w op))) eqn:E; [|reflexivity].
    rewrite (run_initialized ops _ (step_owns_all w op H) E) in Hi.
    discriminate. }
  rewrite IH; auto using step_owns_all.
  - now apply step_dormant_renderer.
  - apply step_dormant; auto.
Qed.

Lemma rederived_off (w : World) :
  _isListening (directive w) = false -> silent (rederived w).
Proof.
  destruct w as [d r io lv]; destruct d as [l md ts lv' el ini h1 h2 h3].
  simpl; intros ->; split; [reflexivity|].
  intros k; destruct k; reflexivity.
Qed.

Lemma dispatches_are_quiet (evs : list Op) :
  forallb is_dispatch evs = true ->
  forallb (fun op => is_destroy op || is_dispatch op) evs = true.
Proof.
  induction evs as [|op evs IH]; simpl; [reflexivity|].
  rewrite !andb_true_iff; intros [-> H]; split; [apply orb_true_r | auto].
Qed.

(** ** C7 *)

(** C7. Right after the constructor, [currentState] reads
    [isListening = true], [listenMouseDownOutside = true],
    [listenTouchStartOutside = false], [listenMouseLeave = false] and
    [listenersCleared = true]; no function is retained, the renderer has
    not been touched, and the directive is bound to the element given. *)
Theorem constructor_defaults (el : Node) (r : Renderer2) :
  currentState (constructor el r) = mkCurrentState true true false false true /\
  (forall k, handle k (directive (constructor el r)) = None) /\
  renderer (constructor el r) = r /\
  listeners (renderer (construct el)) = [] /\
  isInitialized (directive (constructor el r)) = false /\
  htmlElement (directive (constructor el r)) = el.
Proof.
  repeat split. intros k; destruct k; reflexivity.
Qed.

(** ** C8 *)

(** C8. In every state reached before [ngOnInit], nothing is retained and
    the renderer is as it was created.  An update in such a state stores
    the value and does nothing else: the retained functions, the renderer
    and both emitters are as before and the directive is still not
    initialised.  [ngOnInit] called next installs exactly what the stored
    configuration asks for. *)
Theorem updates_before_ngOnInit_only_store
    (el : Node) (ops : list Op) (op : Op) :
  isInitialized (directive (run ops (construct el))) = false ->
  is_update op = true ->
  silent (run ops (construct el)) /\
  renderer (run ops (construct el)) = mkRenderer 0 [] /\
  step (run ops (construct el)) op =
    with_directive (written op (directive (run ops (construct el))))
                   (run ops (construct el)) /\
  (forall k, handle k (directive (step (run ops (construct el)) op)) = None) /\
  renderer (step (run ops (construct el)) op) = mkRenderer 0 [] /\
  isInitialized (directive (step (run ops (construct el)) op)) = false /\
  (forall k,
      truthy (handle k (directive
                          (ngOnInit (step (run ops (construct el)) op)))) =
      _isListening (directive (step (run ops (construct el)) op))
      && flag k (directive (step (run ops (construct el)) op))) /\
  (forall k,
      installed k (ngOnInit (step (run ops (construct el)) op)) =
      held k (directive (ngOnInit (step (run ops (construct el)) op)))).
Proof.
  intros Hi Hu.
  pose proof (reachable_owns_all el ops) as Ho.
  pose proof (reachable_dormant el ops Hi) as Hs.
  assert (Hr : renderer (run ops (construct el)) = mkRenderer 0 []).
  { apply (run_dormant_renderer ops (construct el)); auto.
    - reflexivity.
    - split; [reflexivity | intros k; destruct k; reflexivity]. }
  rewrite (step_stores _ op Hu Hi).
  set (w := run ops (construct el)) in *.
  assert (Ho' : owns_all (with_directive (written op (directive w)) w))
    by now apply written_owns_all.
  split; [exact Hs|]. split; [exact Hr|]. split; [reflexivity|].
  split; [|split; [exact Hr|split]].
  - intros k; destruct Hs as [_ Hh]; specialize (Hh k).
    destruct op, k; simpl in *; try discriminate; exact Hh.
  - destruct op; simpl in *; try discriminate; exact Hi.
  - change (ngOnInit (with_directive (written op (directive w)) w))
      with (step (with_directive (written op (directive w)) w) NgOnInit).
    rewrite (step_rederives _ NgOnInit Ho' eq_refl).
    destruct (rederived_exact
                (with_directive
                   (written NgOnInit
                      (directive (with_directive (written op (directive w)) w)))
                   (with_directive (written op (directive w)) w)))
      as (H1 & H2 & _).
    split; [|exact H2].
    intros k; rewrite H1.
    destruct op, k; simpl in *; try discriminate; reflexivity.
Qed.

Lemma updates_before_ngOnInit_only_store_witness :
  isInitialized (directive (run Fixture.early (construct Fixture.target_))) =
    false /\
  is_update (SetListenTouchStartOutside true) = true /\
  step (run Fixture.early (construct Fixture.target_))
       (SetListenTouchStartOutside true) =
  with_directive
    (written (SetListenTouchStartOutside true)
       (directive (run Fixture.early (construct Fixture.target_))))
    (run Fixture.early (construct Fixture.target_)).
Proof.
  split; [reflexivity|]. split; [reflexivity|].
  apply (updates_before_ngOnInit_only_store Fixture.target_ Fixture.early
           (SetListenTouchStartOutside true)); reflexivity.
Defined.

(** ** C2: ngOnDestroy *)

(** [ngOnDestroy] leaves [isInitialized] set: the next update re-derives
    and registers again, and the next event outside is emitted. *)
Lemma destroy_is_not_permanent :
  listeners (renderer (ngOnDestroy (run [NgOnInit]
                                        (construct Fixture.target_)))) = [] /\
  listeners
    (renderer (run [SetIsListening true]
                   (ngOnDestroy (run [NgOnInit]
                                     (construct Fixture.target_))))) =
    [mkListener 1 (Global "document") "mousedown" OnMouseDown] /\
  interactOutsideEvent
    (run [SetIsListening true;
          DispatchEvent Fixture.lastSibling Fixture.me]
         (ngOnDestroy (run [NgOnInit] (construct Fixture.target_)))) =
    [with_target Fixture.lastSibling Fixture.me] /\
  ~ destroy_is_permanent.
Proof.
  split; [reflexivity|]. split; [reflexivity|]. split; [reflexivity|].
  intros H.
  specialize (H Fixture.target_ [NgOnInit] [SetIsListening true] eq_refl).
  destruct H as [H _]; discriminate H.
Qed.

(** C2 (as the code has it). [ngOnDestroy] removes every registration and
    drops every retained function, in whatever state it is called.
    Calling it again changes nothing, and as long as only further
    [ngOnDestroy] calls and dispatched events follow, the world stays as
    it is: nothing is registered and neither emitter emits.  It does not
    touch [isInitialized], so an update that follows is treated like any
    other update: on a directive that was initialised it runs
    [updateListeners], which retains and registers exactly what the
    configuration then asks for; on a directive that was never initialised
    it only stores the value. *)
Theorem ngOnDestroy_clears (el : Node) (ops after : list Op) :
  forallb (fun op => is_destroy op || is_dispatch op) after = true ->
  silent (ngOnDestroy (run ops (construct el))) /\
  listenersCleared (currentState (ngOnDestroy (run ops (construct el)))) = true /\
  ngOnDestroy (ngOnDestroy (run ops (construct el))) =
    ngOnDestroy (run ops (construct el)) /\
  run after (ngOnDestroy (run ops (construct el))) =
    ngOnDestroy (run ops (construct el)) /\
  interactOutsideEvent (ngOnDestroy (run ops (construct el))) =
    interactOutsideEvent (run ops (construct el)) /\
  mouseLeaveEvent (ngOnDestroy (run ops (construct el))) =
    mouseLeaveEvent (run ops (construct el)) /\
  isInitialized (directive (ngOnDestroy (run ops (construct el)))) =
    isInitialized (directive (run ops (construct el))) /\
  (forall op,
      is_update op = true ->
      isInitialized (directive (run ops (construct el))) = true ->
      rederives op (run after (ngOnDestroy (run ops (construct el)))) = true /\
      (forall k,
          truthy (handle k (directive
                    (step (run after (ngOnDestroy (run ops (construct el))))
                          op))) =
          _isListening (directive
                    (step (run after (ngOnDestroy (run ops (construct el))))
                          op))
          && flag k (directive
                    (step (run after (ngOnDestroy (run ops (construct el))))
                          op))) /\
      (forall k,
          installed k (step (run after (ngOnDestroy (run ops (construct el))))
                            op) =
          held k (directive
                    (step (run after (ngOnDestroy (run ops (construct el))))
                          op))) /\
      NoDup (map unlistenId
               (listeners (renderer
                  (step (run after (ngOnDestroy (run ops (construct el))))
                        op))))) /\
  (forall op,
      is_update op = true ->
      isInitialized (directive (run ops (construct el))) = false ->
      step (run after (ngOnDestroy (run ops (construct el)))) op =
      with_directive
        (written op (directive (ngOnDestroy (run ops (construct el)))))
        (ngOnDestroy (run ops (construct el)))).
Proof.
  intros Hq.
  pose proof (reachable_owns_all el ops) as Ho.
  pose proof (clearListeners_makes_silent _ Ho) as Hs.
  unfold ngOnDestroy.
  set (w := run ops (construct el)) in *.
  assert (Hrun : run after (clearListeners w) = clearListeners w)
    by (apply quiet_run; assumption).
  assert (Hini : isInitialized (directive (clearListeners w)) =
                 isInitialized (directive w))
    by (destruct (clearListeners_frame w) as (-> & _); reflexivity).
  rewrite Hrun.
  split; [exact Hs|]. split; [apply silent_listenersCleared, Hs|].
  split; [apply clearListeners_silent, Hs|].
  split; [reflexivity|].
  split; [apply clearListeners_frame|].
  split; [apply clearListeners_frame|].
  split; [exact Hini|].
  split.
  - intros op Hu Hi.
    assert (Hr : rederives op (clearListeners w) = true)
      by (destruct op; cbn [is_update rederives] in Hu |- *;
          try discriminate; rewrite Hini; exact Hi).
    split; [exact Hr|].
    rewrite (step_rederives _ op (silent_owns_all _ Hs) Hr).
    apply rederived_exact.
  - intros op Hu Hi.
    apply step_stores; [exact Hu | now rewrite Hini].
Qed.

Lemma ngOnDestroy_clears_witness :
  forallb (fun op => is_destroy op || is_dispatch op)
          [DispatchEvent Fixture.parent Fixture.me; NgOnDestroy;
           DispatchEvent Fixture.target_ Fixture.ml] = true /\
  run [DispatchEvent Fixture.parent Fixture.me; NgOnDestroy;
       DispatchEvent Fixture.target_ Fixture.ml]
      (ngOnDestroy (run Fixture.toggled (construct Fixture.target_))) =
  ngOnDestroy (run Fixture.toggled (construct Fixture.target_)) /\
  is_update (SetListenMouseLeave true) = true /\
  isInitialized (directive (run Fixture.toggled
                                (construct Fixture.target_))) = true /\
  rederives (SetListenMouseLeave true)
    (run [DispatchEvent Fixture.parent Fixture.me; NgOnDestroy;
          DispatchEvent Fixture.target_ Fixture.ml]
         (ngOnDestroy (run Fixture.toggled (construct Fixture.target_)))) =
    true.
Proof.
  split; [reflexivity|].
  split.
  - exact (proj1 (proj2 (proj2 (proj2
             (ngOnDestroy_clears Fixture.target_ Fixture.toggled
                [DispatchEvent Fixture.parent Fixture.me; NgOnDestroy;
                 DispatchEvent Fixture.target_ Fixture.ml] eq_refl))))).
  - split; [reflexivity|]. split; [reflexivity|].
    exact (proj1 (proj1 (proj2 (proj2 (proj2 (proj2 (proj2 (proj2 (proj2
             (ngOnDestroy_clears Fixture.target_ Fixture.toggled
                [DispatchEvent Fixture.parent Fixture.me; NgOnDestroy;
                 DispatchEvent Fixture.target_ Fixture.ml] eq_refl))))))))
             (SetListenMouseLeave true) eq_refl eq_refl)).
Defined.

(** ** C6: the master switch *)

(** C6. On an initialised directive, writing [false] to [isListening]
    leaves nothing registered and nothing retained, whatever the three
    flags are, and leaves the flags as they were; events dispatched then
    change nothing, so neither emitter emits.  Writing [true] afterwards
    retains and registers, for each kind, exactly what the flag of that
    kind (never touched meanwhile) asks for. *)
Theorem isListening_false_dominates (el : Node) (ops evs : list Op) :
  isInitialized (directive (run ops (construct el))) = true ->
  forallb is_dispatch evs = true ->
  silent (isListening false (run ops (construct el))) /\
  listenersCleared
    (currentState (isListening false (run ops (construct el)))) = true /\
  (forall k, flag k (directive (isListening false (run ops (construct el)))) =
             flag k (directive (run ops (construct el)))) /\
  run evs (isListening false (run ops (construct el))) =
    isListening false (run ops (construct el)) /\
  interactOutsideEvent (isListening false (run ops (construct el))) =
    interactOutsideEvent (run ops (construct el)) /\
  mouseLeaveEvent (isListening false (run ops (construct el))) =
    mouseLeaveEvent (run ops (construct el)) /\
  (forall k,
      flag k (directive
                (isListening true
                   (run evs (isListening false (run ops (construct el)))))) =
      flag k (directive (run ops (construct el)))) /\
  (forall k,
      truthy (handle k (directive
                (isListening true
                   (run evs (isListening false (run ops (construct el))))))) =
      flag k (directive (run ops (construct el)))) /\
  (forall k,
      installed k (isListening true
                     (run evs (isListening false (run ops (construct el))))) =
      held k (directive
                (isListening true
                   (run evs (isListening false (run ops (construct el))))))).
Proof.
  intros Hi Hev.
  set (w := run ops (construct el)) in *.
  pose proof (reachable_owns_all el ops) as Ho; fold w in Ho.
  rewrite (isListening_rederives w false Ho Hi).
  set (off := rederived (with_directive
                           (written (SetIsListening false) (directive w)) w)).
  assert (Hs : silent off) by (apply rederived_off; reflexivity).
  assert (Hq : run evs off = off)
    by (apply quiet_run; [exact Hs | apply dispatches_are_quiet, Hev]).
  rewrite Hq.
  assert (Hio : isInitialized (directive off) = true) by exact Hi.
  rewrite (isListening_rederives off true (silent_owns_all off Hs) Hio).
  destruct (rederived_exact
              (with_directive (written (SetIsListening true) (directive off))
                 off)) as (H1 & H2 & _).
  split; [exact Hs|]. split.
  - apply silent_listenersCleared, Hs.
  - split; [intros k; destruct k; reflexivity|].
    split; [reflexivity|]. split; [reflexivity|]. split; [reflexivity|].
    split; [intros k; destruct k; reflexivity|].
    split; [|exact H2].
    intros k; rewrite H1; destruct k; reflexivity.
Qed.

Lemma isListening_false_dominates_witness :
  isInitialized (directive (run Fixture.toggled
                                (construct Fixture.target_))) = true /\
  forallb is_dispatch
          [DispatchEvent Fixture.parent Fixture.me;
           DispatchEvent Fixture.target_ Fixture.ml;
           DispatchEvent Fixture.parent (Fixture.te Fixture.parent)] = true /\
  run [DispatchEvent Fixture.parent Fixture.me;
       DispatchEvent Fixture.target_ Fixture.ml;
       DispatchEvent Fixture.parent (Fixture.te Fixture.parent)]
      (isListening false (run Fixture.toggled (construct Fixture.target_))) =
  isListening false (run Fixture.toggled (construct Fixture.target_)).
Proof.
  split; [reflexivity|]. split; [reflexivity|].
  apply (isListening_false_dominates Fixture.target_ Fixture.toggled
           [DispatchEvent Fixture.parent Fixture.me;
            DispatchEvent Fixture.target_ Fixture.ml;
            DispatchEvent Fixture.parent (Fixture.te Fixture.parent)]);
    reflexivity.
Defined.

(** ** C9: writing the value a field already has *)

(** After [ngOnDestroy] the retained functions are gone while the
    configuration still asks for them: writing [true] over [true]
    registers again and [listenersCleared] turns from [true] to [false]. *)
Lemma same_value_after_destroy_changes_state :
  isInitialized
    (directive (run [NgOnInit; NgOnDestroy] (construct Fixture.target_))) =
    true /\
  same_value (SetIsListening true)
             (run [NgOnInit; NgOnDestroy] (construct Fixture.target_)) = true /\
  currentState (run [NgOnInit; NgOnDestroy] (construct Fixture.target_)) =
    mkCurrentState true true false false true /\
  currentState (step (run [NgOnInit; NgOnDestroy] (construct Fixture.target_))
                     (SetIsListening true)) =
    mkCurrentState true true false false false /\
  ~ same_value_is_noop_once_initialized.
Proof.
  split; [reflexivity|]. split; [reflexivity|]. split; [reflexivity|].
  split; [reflexivity|].
  intros H.
  specialize (H Fixture.target_ [NgOnInit; NgOnDestroy] (SetIsListening true)
                eq_refl eq_refl).
  discriminate H.
Qed.

Lemma rederived_synced_state (w : World) :
  synced w -> currentState (rederived w) = currentState w.
Proof.
  intros Hs.
  pose proof (Hs OnMouseDown) as H1; pose proof (Hs OnTouchStart) as H2;
    pose proof (Hs OnMouseLeave) as H3.
  destruct w as [d r io lv]; destruct d as [l md ts lv' el ini h1 h2 h3].
  unfold currentState; simpl in *.
  rewrite <- H1, <- H2, <- H3.
  destruct h1, h2, h3; reflexivity.
Qed.

Lemma same_value_written (op : Op) (w : World) :
  same_value op w = true ->
  with_directive (written op (directive w)) w = w.
Proof.
  destruct w as [d r io lv]; destruct d as [l md ts lv' el ini h1 h2 h3].
  destruct op; simpl; try discriminate; intros H; apply eqb_prop in H;
    subst; reflexivity.
Qed.

(** C9 (as the code has it). Once the directive is initialised and as long
    as [ngOnDestroy] has not been called, writing to any of the four
    inputs the value it already has runs [updateListeners] and leaves
    [currentState] (the four flags and [listenersCleared]) as it was. *)
Theorem same_value_update_keeps_state (el : Node) (ops : list Op) (op : Op) :
  isInitialized (directive (run ops (construct el))) = true ->
  existsb is_destroy ops = false ->
  same_value op (run ops (construct el)) = true ->
  rederives op (run ops (construct el)) = true /\
  step (run ops (construct el)) op = rederived (run ops (construct el)) /\
  currentState (step (run ops (construct el)) op) =
    currentState (run ops (construct el)).
Proof.
  intros Hi Hd Hv.
  pose proof (reachable_owns_all el ops) as Ho.
  pose proof (reachable_synced el ops Hd Hi) as Hs.
  set (w := run ops (construct el)) in *.
  assert (Hr : rederives op w = true)
    by (destruct op; simpl in *; try discriminate; exact Hi).
  rewrite (step_rederives w op Ho Hr), (same_value_written op w Hv).
  split; [exact Hr|]. split; [reflexivity|].
  apply rederived_synced_state, Hs.
Qed.

Lemma same_value_update_keeps_state_witness :
  isInitialized (directive (run Fixture.toggled
                                (construct Fixture.target_))) = true /\
  existsb is_destroy Fixture.toggled = false /\
  same_value (SetListenMouseLeave true)
             (run Fixture.toggled (construct Fixture.target_)) = true /\
  currentState (step (run Fixture.toggled (construct Fixture.target_))
                     (SetListenMouseLeave true)) =
    currentState (run Fixture.toggled (construct Fixture.target_)).
Proof.
  split; [reflexivity|]. split; [reflexivity|]. split; [reflexivity|].
  apply (same_value_update_keeps_state Fixture.target_ Fixture.toggled
           (SetListenMouseLeave true)); reflexivity.
Defined.

(** ** From dispatch to handler *)

(** A bubbling [mousedown] or [touchstart] dispatched anywhere, and a
    [mouseleave] dispatched on the host, is handed to the handler of its
    kind exactly when the directive retains the function of that kind. *)
Lemma dispatch_mousedown (w : World) (n : Node) (ev : Event) :
  owns_all w -> type ev = "mousedown" -> bubbles ev = true ->
  dispatchEvent n ev w =
  if truthy (mouseDownListener (directive w))
  then handleMouseDown (Some (with_target n ev)) w
  else w.
Proof.
  unfold dispatchEvent, owns_all, held, handle, deliver.
  intros -> Ht Hb.
  destruct (mouseDownListener (directive w)),
    (touchStartListener (directive w)), (mouseLeaveListener (directive w));
    cbn [fold_left app subscription eventName listenTarget callback
         with_target type bubbles reaches invoke truthy];
    rewrite ?Ht, ?Hb, ?orb_true_r; reflexivity.
Qed.

Lemma dispatch_touchstart (w : World) (n : Node) (ev : Event) :
  owns_all w -> type ev = "touchstart" -> bubbles ev = true ->
  dispatchEvent n ev w =
  if truthy (touchStartListener (directive w))
  then handleTouchStart (Some (with_target n ev)) w
  else w.
Proof.
  unfold dispatchEvent, owns_all, held, handle, deliver.
  intros -> Ht Hb.
  destruct (mouseDownListener (directive w)),
    (touchStartListener (directive w)), (mouseLeaveListener (directive w));
    cbn [fold_left app subscription eventName listenTarget callback
         with_target type bubbles reaches invoke truthy];
    rewrite ?Ht, ?Hb, ?orb_true_r; reflexivity.
Qed.

Lemma Node_eqb_refl (n : Node) : Node_eqb n n = true.
Proof. unfold Node_eqb; destruct (list_eq_dec Nat.eq_dec n n); congruence. Qed.

Lemma dispatch_mouseleave_on_host (w : World) (ev : Event) :
  owns_all w -> type ev = "mouseleave" ->
  dispatchEvent (htmlElement (directive w)) ev w =
  if truthy (mouseLeaveListener (directive w))
  then handleMouseLeave
         (Some (with_target (htmlElement (directive w)) ev)) w
  else w.
Proof.
  unfold dispatchEvent, owns_all, held, handle, deliver.
  intros -> Ht.
  destruct (mouseDownListener (directive w)),
    (touchStartListener (directive w)), (mouseLeaveListener (directive w));
    cbn [fold_left app subscription eventName listenTarget callback
         with_target type bubbles reaches invoke truthy];
    rewrite ?Ht, ?Node_eqb_refl; reflexivity.
Qed.

(** ** The scenarios of the test suite, run on the model *)

Module Scenario.
Import Fixture.

Example started_state :
  currentState started = mkCurrentState true true true true false.
Proof. reflexivity. Qed.

Example all_flags_off :
  currentState
    (run [SetListenMouseDownOutside false; SetListenTouchStartOutside false;
          SetListenMouseLeave false] started) =
  mkCurrentState true false false false true.
Proof. reflexivity. Qed.

Example mousedown_counts :
  counts (run [mousedown parent; mousedown firstSibling;
               mousedown lastSibling; mousedown target_; mousedown child]
              started) = (3, 0) /\
  counts (run [mousedown parent; mousedown firstSibling;
               mousedown lastSibling; mousedown target_; mousedown child;
               SetListenMouseDownOutside false; mousedown parent;
               SetListenMouseDownOutside true; mousedown parent;
               SetIsListening false; mousedown parent;
               SetIsListening true; mousedown parent]
              started) = (5, 0).
Proof. split; reflexivity. Qed.

Example touchstart_counts :
  counts (run [touchstart parent; touchstart firstSibling;
               touchstart lastSibling; touchstart target_; touchstart child;
               SetListenTouchStartOutside false; touchstart parent;
               SetListenTouchStartOutside true; touchstart parent]
              started) = (4, 0) /\
  counts (run [DispatchEvent lastSibling te_stale] started) = (1, 0).
Proof. split; reflexivity. Qed.

Example mouseleave_counts :
  counts (run [mouseleave parent; mouseleave firstSibling;
               mouseleave lastSibling] started) = (0, 0) /\
  counts (run [mouseleave target_; mouseleave target_;
               SetListenMouseLeave false; mouseleave target_;
               SetListenMouseLeave true; mouseleave target_]
              started) = (0, 3) /\
  counts (run [DispatchEvent target_ ml_bare] started) = (0, 0).
Proof. repeat split; reflexivity. Qed.

Example end_to_end :
  counts (run [mousedown document; mousedown lastSibling; mousedown target_;
               mousedown child; mousedown lastSibling;
               touchstart lastSibling; mouseleave target_;
               SetIsListening false; mousedown lastSibling;
               NgOnDestroy; mousedown lastSibling]
              started) = (4, 1) /\
  listenersCleared
    (currentState
       (run [mousedown document; mousedown lastSibling; mousedown target_;
             mousedown child; mousedown lastSibling;
             touchstart lastSibling; mouseleave target_;
             SetIsListening false; mousedown lastSibling;
             NgOnDestroy; mousedown lastSibling]
            started)) = true.
Proof. split; reflexivity. Qed.
End Scenario.

(** * Further properties of the directive *)

(** ** A dispatch, read by event name *)

Lemma event_name_cases (s : string) :
  s = "mousedown" \/ s = "touchstart" \/ s = "mouseleave" \/
  (String.eqb "mousedown" s = false /\ String.eqb "touchstart" s = false /\
   String.eqb "mouseleave" s = false).
Proof.
  destruct (String.eqb_spec "mousedown" s); [left; congruence|].
  destruct (String.eqb_spec "touchstart" s); [right; left; congruence|].
  destruct (String.eqb_spec "mouseleave" s); [right; right; left; congruence|].
  right; right; right; repeat split; reflexivity.
Qed.

Lemma dispatchEvent_by_name (n : Node) (ev : Event) (w : World) :
  owns_all w -> dispatchEvent n ev w = dispatch_by_name n ev w.
Proof.
  unfold dispatchEvent, dispatch_by_name, owns_all, held, handle, deliver.
  intros ->.
  destruct (event_name_cases (type ev)) as [E | [E | [E | (E1 & E2 & E3)]]];
    destruct (mouseDownListener (directive w)),
      (touchStartListener (directive w)), (mouseLeaveListener (directive w));
    cbn [fold_left app subscription eventName listenTarget callback
         with_target type invoke truthy andb];
    rewrite ?E, ?E1, ?E2, ?E3;
    cbn [String.eqb Ascii.eqb Bool.eqb andb]; reflexivity.
Qed.

(** ** What no operation touches *)

Lemma updateListeners_config (w : World) :
  config (directive (updateListeners w)) = config (directive w) /\
  htmlElement (directive (updateListeners w)) = htmlElement (directive w) /\
  isInitialized (directive (updateListeners w)) =
    isInitialized (directive w) /\
  interactOutsideEvent (updateListeners w) = interactOutsideEvent w /\
  mouseLeaveEvent (updateListeners w) = mouseLeaveEvent w.
Proof.
  destruct w as [d r io lv]; destruct d as [l md ts lv' el ini h1 h2 h3].
  unfold updateListeners, clearListeners, install, listen, config; simpl.
  destruct l, md, ts, lv'; simpl; repeat split.
Qed.

Lemma setter_frame
    (store : bool -> InteractOutsideDirective -> InteractOutsideDirective)
    (v : bool) (w : World) :
  config (directive (setter store v w)) = config (store v (directive w)) /\
  htmlElement (directive (setter store v w)) =
    htmlElement (store v (directive w)) /\
  interactOutsideEvent (setter store v w) = interactOutsideEvent w /\
  mouseLeaveEvent (setter store v w) = mouseLeaveEvent w.
Proof.
  unfold setter.
  destruct (isInitialized (directive (with_directive (store v (directive w)) w))).
  - destruct (updateListeners_config
                (with_directive (store v (directive w)) w))
      as (-> & -> & _ & -> & ->); repeat split.
  - repeat split.
Qed.

Lemma ngOnInit_frame (w : World) :
  config (directive (ngOnInit w)) = config (directive w) /\
  htmlElement (directive (ngOnInit w)) = htmlElement (directive w) /\
  interactOutsideEvent (ngOnInit w) = interactOutsideEvent w /\
  mouseLeaveEvent (ngOnInit w) = mouseLeaveEvent w.
Proof.
  unfold ngOnInit.
  destruct (updateListeners_config
              (with_directive (set_isInitialized true (directive w)) w))
    as (-> & -> & _ & -> & ->); repeat split.
Qed.

Lemma step_config (w : World) (op : Op) :
  config (directive (step w op)) = config (written op (directive w)) /\
  htmlElement (directive (step w op)) = htmlElement (directive w).
Proof.
  destruct op; cbn [step written].
  - destruct (ngOnInit_frame w) as (-> & -> & _); split; reflexivity.
  - unfold ngOnDestroy.
    destruct (clearListeners_frame w) as (-> & _); split; reflexivity.
  - destruct (setter_frame set_isListening value w) as (H1 & H2 & _).
    split; [exact H1 | exact H2].
  - destruct (setter_frame set_listenMouseDownOutside value w)
      as (H1 & H2 & _).
    split; [exact H1 | exact H2].
  - destruct (setter_frame set_listenTouchStartOutside value w)
      as (H1 & H2 & _).
    split; [exact H1 | exact H2].
  - destruct (setter_frame set_listenMouseLeave value w) as (H1 & H2 & _).
    split; [exact H1 | exact H2].
  - destruct (dispatchEvent_frame n ev w) as [-> _]; split; reflexivity.
Qed.

Lemma step_outputs (w : World) (op : Op) :
  is_dispatch op = false ->
  interactOutsideEvent (step w op) = interactOutsideEvent w /\
  mouseLeaveEvent (step w op) = mouseLeaveEvent w.
Proof.
  destruct op; cbn [step is_dispatch]; try discriminate; intros _.
  - destruct (ngOnInit_frame w) as (_ & _ & -> & ->); split; reflexivity.
  - unfold ngOnDestroy.
    destruct (clearListeners_frame w) as (_ & _ & -> & ->); split; reflexivity.
  - destruct (setter_frame set_isListening value w) as (_ & _ & H1 & H2).
    split; [exact H1 | exact H2].
  - destruct (setter_frame set_listenMouseDownOutside value w)
      as (_ & _ & H1 & H2).
    split; [exact H1 | exact H2].
  - destruct (setter_frame set_listenTouchStartOutside value w)
      as (_ & _ & H1 & H2).
    split; [exact H1 | exact H2].
  - destruct (setter_frame set_listenMouseLeave value w) as (_ & _ & H1 & H2).
    split; [exact H1 | exact H2].
Qed.

Lemma run_host (ops : list Op) :
  forall w, htmlElement (directive (run ops w)) = htmlElement (directive w).
Proof.
  induction ops as [|op ops IH]; intros w; simpl; [reflexivity|].
  rewrite IH; apply step_config.
Qed.

(** X9. Each of the four setters writes its own input and no other, in
    any state of the directive, initialised or not: read back through
    [currentState], the input written has the new value and the other
    three have the values they had. *)
Theorem setters_write_their_input (w : World) (v : bool) :
  inputs_read (currentState (isListening v w)) =
    (v, _listenMouseDownOutside (directive w),
     _listenTouchStartOutside (directive w), _listenMouseLeave (directive w))
  /\
  inputs_read (currentState (listenMouseDownOutside v w)) =
    (_isListening (directive w), v,
     _listenTouchStartOutside (directive w), _listenMouseLeave (directive w))
  /\
  inputs_read (currentState (listenTouchStartOutside v w)) =
    (_isListening (directive w), _listenMouseDownOutside (directive w), v,
     _listenMouseLeave (directive w))
  /\
  inputs_read (currentState (listenMouseLeave v w)) =
    (_isListening (directive w), _listenMouseDownOutside (directive w),
     _listenTouchStartOutside (directive w), v).
Proof.
  change (fun w' => inputs_read (currentState w'))
    with (fun w' => config (directive w')).
  repeat split.
  - exact (proj1 (step_config w (SetIsListening v))).
  - exact (proj1 (step_config w (SetListenMouseDownOutside v))).
  - exact (proj1 (step_config w (SetListenTouchStartOutside v))).
  - exact (proj1 (step_config w (SetListenMouseLeave v))).
Qed.

Lemma Node_eqb_eq (a b : Node) : Node_eqb a b = true -> a = b.
Proof.
  unfold Node_eqb; destruct (list_eq_dec Nat.eq_dec a b);
    [auto | discriminate].
Qed.

Lemma reachable_host (el : Node) (ops : list Op) :
  htmlElement (directive (run ops (construct el))) = el.
Proof. now rewrite run_host. Qed.

(** ** What a dispatched event does *)

(** X1. On a directive that is initialised and has not been destroyed, a
    bubbling [mousedown] dispatched on a node emits on
    [interactOutsideEvent] exactly when [isListening] and
    [listenMouseDownOutside] are both on and the host does not contain the
    node; what is emitted is the event, once, with that node as target.
    In every other case the dispatch changes nothing. *)
Theorem mousedown_dispatch
    (el : Node) (ops : list Op) (n : Node) (ev : Event) :
  isInitialized (directive (run ops (construct el))) = true ->
  existsb is_destroy ops = false ->
  type ev = "mousedown" -> bubbles ev = true ->
  dispatchEvent n ev (run ops (construct el)) =
  if _isListening (directive (run ops (construct el)))
     && _listenMouseDownOutside (directive (run ops (construct el)))
     && negb (contains el n)
  then emit_interactOutside (with_target n ev) (run ops (construct el))
  else run ops (construct el).
Proof.
  intros Hi Hd Ht Hb.
  pose proof (reachable_synced el ops Hd Hi OnMouseDown) as Hs.
  pose proof (reachable_host el ops) as Hh.
  rewrite (dispatchEvent_by_name n ev _ (reachable_owns_all el ops)).
  set (w := run ops (construct el)) in *.
  unfold dispatch_by_name, handleMouseDown; cbn [handle flag] in Hs.
  rewrite Ht, Hs, Hh; cbn [String.eqb Ascii.eqb Bool.eqb andb].
  cbn [reaches String.eqb Ascii.eqb Bool.eqb andb with_target bubbles target].
  rewrite Hb, orb_true_r, andb_true_r.
  destruct (_isListening (directive w) && _listenMouseDownOutside (directive w));
    [|reflexivity].
  destruct (contains el n); reflexivity.
Qed.

Lemma mousedown_dispatch_witness :
  isInitialized (directive (run Fixture.toggled
                                (construct Fixture.target_))) = true /\
  existsb is_destroy Fixture.toggled = false /\
  type Fixture.me = "mousedown" /\ bubbles Fixture.me = true /\
  dispatchEvent Fixture.lastSibling Fixture.me
                (run Fixture.toggled (construct Fixture.target_)) =
  emit_interactOutside (with_target Fixture.lastSibling Fixture.me)
                       (run Fixture.toggled (construct Fixture.target_)).
Proof.
  do 4 (split; [reflexivity|]).
  exact (mousedown_dispatch Fixture.target_ Fixture.toggled
           Fixture.lastSibling Fixture.me eq_refl eq_refl eq_refl eq_refl).
Defined.

Lemma touchstart_heard
    (el : Node) (ops : list Op) (n : Node) (ev : Event) :
  isInitialized (directive (run ops (construct el))) = true ->
  existsb is_destroy ops = false ->
  type ev = "touchstart" -> bubbles ev = true ->
  dispatchEvent n ev (run ops (construct el)) =
  if _isListening (directive (run ops (construct el)))
     && _listenTouchStartOutside (directive (run ops (construct el)))
     && touch_outside el ev
  then emit_interactOutside (with_target n ev) (run ops (construct el))
  else run ops (construct el).
Proof.
  intros Hi Hd Ht Hb.
  pose proof (reachable_synced el ops Hd Hi OnTouchStart) as Hs.
  pose proof (reachable_host el ops) as Hh.
  rewrite (dispatchEvent_by_name n ev _ (reachable_owns_all el ops)).
  set (w := run ops (construct el)) in *.
  unfold dispatch_by_name; cbn [handle flag] in Hs.
  rewrite Ht, Hs, handleTouchStart_firstChangedTouch, Hh.
  cbn [String.eqb Ascii.eqb Bool.eqb andb].
  cbn [reaches String.eqb Ascii.eqb Bool.eqb andb with_target bubbles].
  rewrite Hb, orb_true_r, andb_true_r.
  unfold touch_outside, firstChangedTouch; cbn [with_target changedTouches].
  destruct (_isListening (directive w)
            && _listenTouchStartOutside (directive w)); [|reflexivity].
  destruct (changedTouches ev) as [[|[touch|] rest]|]; try reflexivity.
  destruct (touch_target touch) as [t|]; [|reflexivity].
  destruct (contains el t); reflexivity.
Qed.

(** X2. On a directive that is initialised and has not been destroyed, a
    bubbling [touchstart] emits on [interactOutsideEvent] exactly when
    [isListening] and [listenTouchStartOutside] are both on and
    [changedTouches[0]] has a target the host does not contain.  The node
    the event is dispatched on plays no part in the decision. *)
Theorem touchstart_dispatch
    (el : Node) (ops : list Op) (n : Node) (ev : Event) :
  isInitialized (directive (run ops (construct el))) = true ->
  existsb is_destroy ops = false ->
  type ev = "touchstart" -> bubbles ev = true ->
  dispatchEvent n ev (run ops (construct el)) =
  if _isListening (directive (run ops (construct el)))
     && _listenTouchStartOutside (directive (run ops (construct el)))
     && touch_outside el ev
  then emit_interactOutside (with_target n ev) (run ops (construct el))
  else run ops (construct el).
Proof. apply touchstart_heard. Qed.

Lemma touchstart_dispatch_witness :
  isInitialized (directive (run Fixture.toggled
                                (construct Fixture.target_))) = true /\
  existsb is_destroy Fixture.toggled = false /\
  type Fixture.te_stale = "touchstart" /\ bubbles Fixture.te_stale = true /\
  dispatchEvent Fixture.child Fixture.te_stale
                (run Fixture.toggled (construct Fixture.target_)) =
  emit_interactOutside (with_target Fixture.child Fixture.te_stale)
                       (run Fixture.toggled (construct Fixture.target_)).
Proof.
  do 4 (split; [reflexivity|]).
  exact (touchstart_dispatch Fixture.target_ Fixture.toggled
           Fixture.child Fixture.te_stale eq_refl eq_refl eq_refl eq_refl).
Defined.

(** X3. On a directive that is initialised and has not been destroyed, a
    [mouseleave] emits on [mouseLeaveEvent] exactly when [isListening] and
    [listenMouseLeave] are both on, the event is dispatched on the host
    (or below it and bubbles), and it carries a [relatedTarget] or a
    [toElement].  A [mouseleave] dispatched elsewhere in the document is
    never emitted. *)
Theorem mouseleave_dispatch
    (el : Node) (ops : list Op) (n : Node) (ev : Event) :
  isInitialized (directive (run ops (construct el))) = true ->
  existsb is_destroy ops = false ->
  type ev = "mouseleave" ->
  dispatchEvent n ev (run ops (construct el)) =
  if _isListening (directive (run ops (construct el)))
     && _listenMouseLeave (directive (run ops (construct el)))
     && (Node_eqb el n || (bubbles ev && contains el n))
     && leave_evidence ev
  then emit_mouseLeave (with_target n ev) (run ops (construct el))
  else run ops (construct el).
Proof.
  intros Hi Hd Ht.
  pose proof (reachable_synced el ops Hd Hi OnMouseLeave) as Hs.
  pose proof (reachable_host el ops) as Hh.
  rewrite (dispatchEvent_by_name n ev _ (reachable_owns_all el ops)).
  set (w := run ops (construct el)) in *.
  unfold dispatch_by_name, handleMouseLeave, leave_evidence.
  cbn [handle flag] in Hs.
  rewrite Ht, Hs, Hh; cbn [String.eqb Ascii.eqb Bool.eqb andb].
  cbn [reaches with_target bubbles relatedTarget toElement].
  destruct (_isListening (directive w) && _listenMouseLeave (directive w));
    [|reflexivity].
  destruct (Node_eqb el n || (bubbles ev && contains el n)); [|reflexivity].
  destruct (truthy (relatedTarget ev) || truthy (toElement ev)); reflexivity.
Qed.

Lemma mouseleave_dispatch_witness :
  isInitialized (directive (run Fixture.toggled
                                (construct Fixture.target_))) = true /\
  existsb is_destroy Fixture.toggled = false /\
  type Fixture.ml = "mouseleave" /\
  dispatchEvent Fixture.target_ Fixture.ml
                (run Fixture.toggled (construct Fixture.target_)) =
  if _isListening (directive (run Fixture.toggled (construct Fixture.target_)))
     && _listenMouseLeave
          (directive (run Fixture.toggled (construct Fixture.target_)))
     && (Node_eqb Fixture.target_ Fixture.target_
         || (bubbles Fixture.ml && contains Fixture.target_ Fixture.target_))
     && leave_evidence Fixture.ml
  then emit_mouseLeave (with_target Fixture.target_ Fixture.ml)
                       (run Fixture.toggled (construct Fixture.target_))
  else run Fixture.toggled (construct Fixture.target_).
Proof.
  do 3 (split; [reflexivity|]).
  exact (mouseleave_dispatch Fixture.target_ Fixture.toggled
           Fixture.target_ Fixture.ml eq_refl eq_refl eq_refl).
Defined.

(** X4. The directive hears three event names and no other: in any state
    it can be in, an event whose type is none of [mousedown], [touchstart]
    and [mouseleave] changes nothing and is emitted on neither output. *)
Theorem other_events_ignored
    (el : Node) (ops : list Op) (n : Node) (ev : Event) :
  type ev <> "mousedown" -> type ev <> "touchstart" ->
  type ev <> "mouseleave" ->
  dispatchEvent n ev (run ops (construct el)) = run ops (construct el).
Proof.
  intros H1 H2 H3.
  rewrite (dispatchEvent_by_name n ev _ (reachable_owns_all el ops)).
  unfold dispatch_by_name.
  destruct (String.eqb_spec "mousedown" (type ev)); [congruence|].
  destruct (String.eqb_spec "touchstart" (type ev)); [congruence|].
  destruct (String.eqb_spec "mouseleave" (type ev)); [congruence|].
  reflexivity.
Qed.

Lemma other_events_ignored_witness :
  dispatchEvent Fixture.parent
    (mkEvent "click" true None None (Some Fixture.parent) None None
             (Some [Some (mkTouch (Some Fixture.parent))]))
    (run Fixture.toggled (construct Fixture.target_)) =
  run Fixture.toggled (construct Fixture.target_).
Proof.
  apply (other_events_ignored Fixture.target_ Fixture.toggled);
    discriminate.
Defined.

Lemma handleMouseDown_cases (ev : Event) (w : World) :
  handleMouseDown (Some ev) w = w \/
  (handleMouseDown (Some ev) w = emit_interactOutside ev w /\
   target_outside (htmlElement (directive w)) ev = true).
Proof.
  unfold handleMouseDown, target_outside.
  destruct (target ev) as [t|]; [|left; reflexivity].
  destruct (contains _ t); [left | right; split]; reflexivity.
Qed.

Lemma handleTouchStart_cases (ev : Event) (w : World) :
  handleTouchStart (Some ev) w = w \/
  (handleTouchStart (Some ev) w = emit_interactOutside ev w /\
   touch_outside (htmlElement (directive w)) ev = true).
Proof.
  rewrite handleTouchStart_firstChangedTouch; unfold touch_outside.
  destruct (firstChangedTouch ev) as [touch|]; [|left; reflexivity].
  destruct (touch_target touch) as [t|]; [|left; reflexivity].
  destruct (contains _ t); [left | right; split]; reflexivity.
Qed.

Lemma handleMouseLeave_cases (ev : Event) (w : World) :
  handleMouseLeave (Some ev) w = w \/
  (handleMouseLeave (Some ev) w = emit_mouseLeave ev w /\
   leave_evidence ev = true).
Proof.
  unfold handleMouseLeave, leave_evidence.
  destruct (truthy (relatedTarget ev) || truthy (toElement ev));
    [right; split | left]; reflexivity.
Qed.

(** What one dispatch can do to a world that owns its registrations. *)
Lemma dispatch_outcomes (n : Node) (ev : Event) (w : World) :
  owns_all w ->
  dispatchEvent n ev w = w \/
  (dispatchEvent n ev w = emit_interactOutside (with_target n ev) w /\
   outside_interaction (htmlElement (directive w)) (with_target n ev) = true)
  \/
  (dispatchEvent n ev w = emit_mouseLeave (with_target n ev) w /\
   leave_of_host (htmlElement (directive w)) (with_target n ev) = true).
Proof.
  intros H; rewrite (dispatchEvent_by_name n ev w H).
  unfold dispatch_by_name, outside_interaction, leave_of_host.
  cbn [with_target type target].
  destruct (String.eqb_spec "mousedown" (type ev)) as [E1|E1].
  - destruct (_ && _); [|left; reflexivity].
    destruct (handleMouseDown_cases (with_target n ev) w) as [-> | [-> Ho]];
      [left; reflexivity|].
    right; left; split; [reflexivity|].
    rewrite <- E1, Ho; reflexivity.
  - destruct (String.eqb_spec "touchstart" (type ev)) as [E2|E2].
    + destruct (_ && _); [|left; reflexivity].
      destruct (handleTouchStart_cases (with_target n ev) w) as [-> | [-> Ho]];
        [left; reflexivity|].
      right; left; split; [reflexivity|].
      rewrite <- E2, Ho; cbn [String.eqb Ascii.eqb Bool.eqb andb orb].
      reflexivity.
    + destruct (String.eqb_spec "mouseleave" (type ev)) as [E3|E3];
        [|left; reflexivity].
      destruct (truthy _ && reaches _ n _) eqn:Hr; [|left; reflexivity].
      destruct (handleMouseLeave_cases (with_target n ev) w)
        as [-> | [-> Ho]]; [left; reflexivity|].
      right; right; split; [reflexivity|].
      apply andb_true_iff in Hr; destruct Hr as [_ Hr].
      cbn [reaches with_target bubbles] in Hr.
      rewrite <- E3, Ho; cbn [String.eqb Ascii.eqb Bool.eqb andb].
      apply orb_true_iff in Hr; destruct Hr as [Hr | Hr].
      * apply Node_eqb_eq in Hr; rewrite <- Hr; apply contains_refl.
      * apply andb_true_iff in Hr; apply Hr.
Qed.

(** X5. In any state the directive can be in, one dispatched event makes
    at most one emission: the dispatch either changes nothing, or emits
    the event (with the dispatch node as its target) once on
    [interactOutsideEvent], or emits it once on [mouseLeaveEvent]; never
    on both and never twice. *)
Theorem one_dispatch_one_emission
    (el : Node) (ops : list Op) (n : Node) (ev : Event) :
  dispatchEvent n ev (run ops (construct el)) = run ops (construct el) \/
  dispatchEvent n ev (run ops (construct el)) =
    emit_interactOutside (with_target n ev) (run ops (construct el)) \/
  dispatchEvent n ev (run ops (construct el)) =
    emit_mouseLeave (with_target n ev) (run ops (construct el)).
Proof.
  destruct (dispatch_outcomes n ev _ (reachable_owns_all el ops))
    as [H | [[H _] | [H _]]]; auto.
Qed.

(** ** What [currentState] tells about the renderer *)

Lemma owned_listenersCleared (w : World) :
  owns_all w ->
  listenersCleared (currentState w) =
  match listeners (renderer w) with [] => true | _ :: _ => false end.
Proof.
  unfold owns_all, held, handle, currentState; cbn [listenersCleared].
  intros ->.
  destruct (mouseDownListener (directive w)),
    (touchStartListener (directive w)), (mouseLeaveListener (directive w));
    reflexivity.
Qed.

(** X8. [listenersCleared] never lies about the renderer: in any state the
    directive can be in, [currentState] reports [listenersCleared] exactly
    when the renderer has no registration left. *)
Theorem listenersCleared_is_accurate (el : Node) (ops : list Op) :
  listenersCleared (currentState (run ops (construct el))) = true <->
  listeners (renderer (run ops (construct el))) = [].
Proof.
  rewrite (owned_listenersCleared _ (reachable_owns_all el ops)).
  destruct (listeners (renderer (run ops (construct el))));
    split; congruence.
Qed.

(** X12. Whenever [currentState] reports [listenersCleared] (before
    [ngOnInit], after [ngOnDestroy], with [isListening] off, with the
    three flags off), no event of any name dispatched on any node is
    emitted: the dispatch leaves the world as it is. *)
Theorem cleared_hears_nothing
    (el : Node) (ops : list Op) (n : Node) (ev : Event) :
  listenersCleared (currentState (run ops (construct el))) = true ->
  dispatchEvent n ev (run ops (construct el)) = run ops (construct el).
Proof.
  intros H; apply dispatchEvent_unheard.
  rewrite (owned_listenersCleared _ (reachable_owns_all el ops)) in H.
  destruct (listeners (renderer (run ops (construct el))));
    [reflexivity | discriminate].
Qed.

Lemma cleared_hears_nothing_witness :
  listenersCleared
    (currentState
       (run (Fixture.toggled ++ [SetIsListening false])
            (construct Fixture.target_))) = true /\
  dispatchEvent Fixture.lastSibling Fixture.me
    (run (Fixture.toggled ++ [SetIsListening false])
         (construct Fixture.target_)) =
  run (Fixture.toggled ++ [SetIsListening false]) (construct Fixture.target_).
Proof.
  split; [reflexivity|].
  exact (cleared_hears_nothing Fixture.target_
           (Fixture.toggled ++ [SetIsListening false])
           Fixture.lastSibling Fixture.me eq_refl).
Defined.

(** ** What the outputs hold over a whole history *)

Lemma step_sound (el : Node) (w : World) (op : Op) :
  owns_all w -> htmlElement (directive w) = el ->
  sound_outputs el w -> sound_outputs el (step w op).
Proof.
  intros Ho Hh [Hio Hml]; unfold sound_outputs.
  destruct (is_dispatch op) eqn:Hd.
  - destruct op; try discriminate; cbn [step].
    destruct (dispatch_outcomes n ev w Ho) as [-> | [[-> H] | [-> H]]];
      try rewrite Hh in H;
      cbn [emit_interactOutside emit_mouseLeave
             interactOutsideEvent mouseLeaveEvent].
    + split; assumption.
    + split; [|assumption].
      apply Forall_app; split; [assumption | repeat constructor; exact H].
    + split; [assumption|].
      apply Forall_app; split; [assumption | repeat constructor; exact H].
  - destruct (step_outputs w op Hd) as [-> ->]; split; assumption.
Qed.

Lemma run_sound (el : Node) (ops : list Op) :
  forall w, owns_all w -> htmlElement (directive w) = el ->
            sound_outputs el w -> sound_outputs el (run ops w).
Proof.
  induction ops as [|op ops IH]; intros w Ho Hh Hs; simpl; [exact Hs|].
  apply IH.
  - apply step_owns_all, Ho.
  - rewrite <- Hh; apply step_config.
  - apply step_sound; assumption.
Qed.

Lemma reachable_sound (el : Node) (ops : list Op) :
  sound_outputs el (run ops (construct el)).
Proof.
  apply run_sound; [reflexivity | reflexivity |].
  split; constructor.
Qed.

(** X6. No false alarm on [interactOutsideEvent]: whatever inputs are
    written, whatever events are dispatched and in whatever order, every
    value the output has emitted is a [mousedown] whose target is a node
    the host does not contain, or a [touchstart] whose first changed touch
    has such a target. *)
Theorem interactOutsideEvent_sound (el : Node) (ops : list Op) :
  Forall (fun e => outside_interaction el e = true)
         (interactOutsideEvent (run ops (construct el))).
Proof. apply reachable_sound. Qed.

(** X7. No false alarm on [mouseLeaveEvent]: over any history, every value
    the output has emitted is a [mouseleave] that carries a
    [relatedTarget] or a [toElement] and whose target is the host or a
    node the host contains. *)
Theorem mouseLeaveEvent_sound (el : Node) (ops : list Op) :
  Forall (fun e => leave_of_host el e = true)
         (mouseLeaveEvent (run ops (construct el))).
Proof. apply reachable_sound. Qed.

Lemma step_emissions (w : World) (op : Op) :
  owns_all w ->
  emissions (step w op) <= emissions w + (if is_dispatch op then 1 else 0).
Proof.
  intros Ho; unfold emissions.
  destruct (is_dispatch op) eqn:Hd.
  - destruct op; try discriminate; cbn [step].
    destruct (dispatch_outcomes n ev w Ho) as [-> | [[-> _] | [-> _]]];
      cbn [emit_interactOutside emit_mouseLeave
             interactOutsideEvent mouseLeaveEvent];
      rewrite ?length_app; simpl; lia.
  - destruct (step_outputs w op Hd) as [-> ->]; lia.
Qed.

Lemma run_emissions (ops : list Op) :
  forall w, owns_all w ->
            emissions (run ops w) <=
            emissions w + List.length (filter is_dispatch ops).
Proof.
  induction ops as [|op ops IH]; intros w Ho; simpl; [lia|].
  specialize (IH (step w op) (step_owns_all w op Ho)).
  pose proof (step_emissions w op Ho) as Hs.
  destruct (is_dispatch op); simpl; lia.
Qed.

(** X15. The directive emits only in answer to events: over any history,
    the two outputs together have emitted at most as many values as events
    were dispatched.  Writing inputs, [ngOnInit] and [ngOnDestroy] emit
    nothing. *)
Theorem emissions_bounded_by_dispatches (el : Node) (ops : list Op) :
  emissions (run ops (construct el)) <=
  List.length (filter is_dispatch ops).
Proof. exact (run_emissions ops (construct el) eq_refl). Qed.

(** ** Writing inputs twice, and in another order *)

Lemma synced_state (w : World) :
  synced w ->
  currentState w =
  mkCurrentState (_isListening (directive w))
    (_listenMouseDownOutside (directive w))
    (_listenTouchStartOutside (directive w))
    (_listenMouseLeave (directive w)) (cleared_by_config (directive w)).
Proof.
  intros Hs.
  pose proof (Hs OnMouseDown) as H1; pose proof (Hs OnTouchStart) as H2;
    pose proof (Hs OnMouseLeave) as H3.
  unfold currentState, cleared_by_config; cbn [handle flag] in *.
  now rewrite H1, H2, H3.
Qed.

Lemma config_state (w w' : World) :
  synced w -> synced w' -> config (directive w) = config (directive w') ->
  currentState w = currentState w'.
Proof.
  intros Hs Hs' Hc.
  rewrite (synced_state w Hs), (synced_state w' Hs').
  unfold config, cleared_by_config in *.
  injection Hc as -> -> -> ->; reflexivity.
Qed.

Lemma step_rederives_synced (w : World) (op : Op) :
  owns_all w -> rederives op w = true -> synced (step w op).
Proof.
  intros Ho Hr; rewrite (step_rederives w op Ho Hr).
  exact (proj1 (rederived_exact _)).
Qed.

Lemma written_twice (op : Op) (d : InteractOutsideDirective) :
  written op (written op d) = written op d.
Proof. destruct op; reflexivity. Qed.

Lemma written_swap (a b : Op) (d : InteractOutsideDirective) :
  input_of a <> input_of b ->
  written a (written b d) = written b (written a d).
Proof. destruct a, b; simpl; intros H; try reflexivity; congruence. Qed.

Lemma config_written (op : Op) (d d' : InteractOutsideDirective) :
  config d = config d' -> config (written op d) = config (written op d').
Proof.
  unfold config; intros H; injection H as H1 H2 H3 H4.
  destruct op; cbn [written set_isInitialized set_isListening
                      set_listenMouseDownOutside set_listenTouchStartOutside
                      set_listenMouseLeave _isListening
                      _listenMouseDownOutside _listenTouchStartOutside
                      _listenMouseLeave]; congruence.
Qed.

Lemma rederives_after (w : World) (a b : Op) :
  owns_all w -> is_update b || is_init b = true ->
  isInitialized (directive w) = true ->
  rederives b (step w a) = true.
Proof.
  intros Ho Hb Hi.
  assert (Hi' : isInitialized (directive (step w a)) = true)
    by now rewrite (step_initialized w a Ho), Hi.
  destruct b; simpl in *; try discriminate; auto.
Qed.

(** X10. Writing an input twice with the same value, or calling
    [ngOnInit] twice, shows the same [currentState] as doing it once, in
    any state the directive can be in (before [ngOnInit], after it, after
    [ngOnDestroy]). *)
Theorem update_twice_same_state (el : Node) (ops : list Op) (op : Op) :
  is_update op || is_init op = true ->
  currentState (step (step (run ops (construct el)) op) op) =
  currentState (step (run ops (construct el)) op).
Proof.
  intros Hop.
  pose proof (reachable_owns_all el ops) as Ho.
  set (w := run ops (construct el)) in *.
  pose proof (step_owns_all w op Ho) as Ho1.
  destruct (rederives op w) eqn:Hr.
  - assert (Hi1 : isInitialized (directive (step w op)) = true).
    { rewrite (step_initialized w op Ho).
      destruct op; simpl in *; try discriminate;
        rewrite ?Hr, ?orb_true_r; reflexivity. }
    assert (Hr1 : rederives op (step w op) = true)
      by (destruct op; simpl in *; try discriminate; auto).
    apply config_state.
    + now apply step_rederives_synced.
    + now apply step_rederives_synced.
    + rewrite (proj1 (step_config (step w op) op)).
      rewrite (config_written op _ _ (proj1 (step_config w op))).
      rewrite written_twice; symmetry; apply step_config.
  - assert (Hi : isInitialized (directive w) = false)
      by (destruct op; simpl in *; try discriminate; exact Hr).
    assert (Hu : is_update op = true)
      by (destruct op; simpl in *; try discriminate; reflexivity).
    rewrite (step_stores w op Hu Hi).
    rewrite (step_stores (with_directive (written op (directive w)) w) op Hu)
      by (destruct op; simpl in *; try discriminate; exact Hi).
    cbn [with_directive directive]; rewrite written_twice; reflexivity.
Qed.

Lemma update_twice_same_state_witness :
  is_update (SetListenMouseLeave false)
  || is_init (SetListenMouseLeave false) = true /\
  currentState
    (step (step (run (Fixture.toggled ++ [NgOnDestroy])
                     (construct Fixture.target_))
                (SetListenMouseLeave false))
          (SetListenMouseLeave false)) =
  currentState
    (step (run (Fixture.toggled ++ [NgOnDestroy]) (construct Fixture.target_))
          (SetListenMouseLeave false)).
Proof.
  split; [reflexivity|].
  exact (update_twice_same_state Fixture.target_
           (Fixture.toggled ++ [NgOnDestroy]) (SetListenMouseLeave false)
           eq_refl).
Defined.

(** X13. The order in which two different inputs are written does not
    show: in any state the directive can be in, writing one input and then
    another gives the same [currentState] as writing them the other way
    round. *)
Theorem updates_commute (el : Node) (ops : list Op) (a b : Op) :
  is_update a = true -> is_update b = true -> input_of a <> input_of b ->
  currentState (step (step (run ops (construct el)) a) b) =
  currentState (step (step (run ops (construct el)) b) a).
Proof.
  intros Ha Hb Hab.
  pose proof (reachable_owns_all el ops) as Ho.
  set (w := run ops (construct el)) in *.
  destruct (isInitialized (directive w)) eqn:Hi.
  - apply config_state.
    + apply step_rederives_synced; [apply step_owns_all, Ho|].
      apply rederives_after; auto. now rewrite Hb.
    + apply step_rederives_synced; [apply step_owns_all, Ho|].
      apply rederives_after; auto. now rewrite Ha.
    + rewrite (proj1 (step_config (step w a) b)),
        (proj1 (step_config (step w b) a)).
      rewrite (config_written b _ _ (proj1 (step_config w a))).
      rewrite (config_written a _ _ (proj1 (step_config w b))).
      now rewrite (written_swap a b _ Hab).
  - rewrite (step_stores w a Ha Hi), (step_stores w b Hb Hi).
    rewrite (step_stores (with_directive (written a (directive w)) w) b Hb)
      by (destruct a; simpl in *; try discriminate; exact Hi).
    rewrite (step_stores (with_directive (written b (directive w)) w) a Ha)
      by (destruct b; simpl in *; try discriminate; exact Hi).
    cbn [with_directive directive]; rewrite (written_swap a b _ Hab).
    reflexivity.
Qed.

Lemma updates_commute_witness :
  is_update (SetIsListening false) = true /\
  is_update (SetListenMouseLeave false) = true /\
  input_of (SetIsListening false) <> input_of (SetListenMouseLeave false) /\
  currentState
    (step (step (run Fixture.toggled (construct Fixture.target_))
                (SetIsListening false)) (SetListenMouseLeave false)) =
  currentState
    (step (step (run Fixture.toggled (construct Fixture.target_))
                (SetListenMouseLeave false)) (SetIsListening false)).
Proof.
  split; [reflexivity|]. split; [reflexivity|].
  split; [discriminate|].
  apply (updates_commute Fixture.target_ Fixture.toggled
           (SetIsListening false) (SetListenMouseLeave false));
    [reflexivity | reflexivity | discriminate].
Defined.

(** ** The registrations over a whole history *)

Lemma owned_registrations (w : World) :
  owns_all w ->
  forallb (well_formed (htmlElement (directive w))) (listeners (renderer w))
    = true /\
  List.length (listeners (renderer w)) <= 3 /\
  (forall k, List.length (installed k w) <= 1).
Proof.
  unfold owns_all, installed, held, handle; intros ->.
  destruct (mouseDownListener (directive w)),
    (touchStartListener (directive w)), (mouseLeaveListener (directive w));
    cbn [app subscription forallb well_formed callback eventName listenTarget
         String.eqb Ascii.eqb Bool.eqb andb List.length];
    rewrite ?Node_eqb_refl; (split; [reflexivity|]); (split; [lia|]);
    intros k; destruct k; cbn; lia.
Qed.

Lemma step_distinct (w : World) (op : Op) :
  owns_all w ->
  NoDup (map unlistenId (listeners (renderer w))) ->
  NoDup (map unlistenId (listeners (renderer (step w op)))).
Proof.
  intros Ho Hn.
  destruct (rederives op w) eqn:Hr.
  - rewrite (step_rederives w op Ho Hr); apply rederived_exact.
  - destruct op; simpl in Hr; try discriminate.
    + change (step w NgOnDestroy) with (clearListeners w).
      rewrite (clearListeners_owned w Ho); constructor.
    + now rewrite step_stores.
    + now rewrite step_stores.
    + now rewrite step_stores.
    + now rewrite step_stores.
    + cbn [step]; destruct (dispatchEvent_frame n ev w) as [_ ->]; exact Hn.
Qed.

Lemma run_distinct (ops : list Op) :
  forall w, owns_all w ->
            NoDup (map unlistenId (listeners (renderer w))) ->
            NoDup (map unlistenId (listeners (renderer (run ops w)))).
Proof.
  induction ops as [|op ops IH]; intros w Ho Hn; simpl; [exact Hn|].
  apply IH; [apply step_owns_all, Ho | apply step_distinct; assumption].
Qed.

(** X11. However often the inputs are toggled, registrations never pile
    up: in any state the directive can be in, the renderer holds at most
    three registrations, at most one per kind, no two with the same
    removal function, and each is one of [mousedown] on the document,
    [touchstart] on the document, [mouseleave] on the host element. *)
Theorem registrations_never_leak (el : Node) (ops : list Op) :
  List.length (listeners (renderer (run ops (construct el)))) <= 3 /\
  (forall k, List.length (installed k (run ops (construct el))) <= 1) /\
  NoDup (map unlistenId (listeners (renderer (run ops (construct el))))) /\
  forallb (well_formed el) (listeners (renderer (run ops (construct el))))
    = true.
Proof.
  destruct (owned_registrations _ (reachable_owns_all el ops))
    as (Hw & Hl & Hk).
  rewrite (reachable_host el ops) in Hw.
  split; [exact Hl|]. split; [exact Hk|]. split; [|exact Hw].
  apply run_distinct; [reflexivity | constructor].
Qed.

Lemma run_initialized_eq (ops : list Op) :
  forall w, owns_all w ->
            isInitialized (directive (run ops w)) =
            isInitialized (directive w) || existsb is_init ops.
Proof.
  induction ops as [|op ops IH]; intros w Ho; simpl;
    [now rewrite orb_false_r|].
  rewrite (IH _ (step_owns_all w op Ho)), (step_initialized w op Ho).
  now rewrite orb_assoc.
Qed.

(** X14. [isInitialized] is set by [ngOnInit] and by nothing else, and is
    never reset: after any history the directive is initialised exactly
    when [ngOnInit] was called at some point, [ngOnDestroy] after it or
    not. *)
Theorem isInitialized_iff_ngOnInit_called (el : Node) (ops : list Op) :
  isInitialized (directive (run ops (construct el))) = existsb is_init ops.
Proof. exact (run_initialized_eq ops (construct el) eq_refl). Qed.

(** ** The master switch over a whole history *)

(** Switched off, with nothing registered and nothing retained. *)
Lemma off_step (w : World) (op : Op) :
  turns_on op = false ->
  silent w /\ _isListening (directive w) = false ->
  (silent (step w op) /\ _isListening (directive (step w op)) = false) /\
  interactOutsideEvent (step w op) = interactOutsideEvent w /\
  mouseLeaveEvent (step w op) = mouseLeaveEvent w.
Proof.
  intros Hop [Hs Hl].
  pose proof (silent_owns_all w Hs) as Ho.
  destruct (is_dispatch op) eqn:Hd.
  - destruct op; try discriminate; cbn [step].
    rewrite (dispatchEvent_unheard n ev w (proj1 Hs)); auto.
  - split; [|apply step_outputs, Hd].
    assert (Hl' : _isListening (directive (step w op)) = false).
    { pose proof (proj1 (step_config w op)) as Hc; unfold config in Hc.
      injection Hc as -> _ _ _.
      destruct op as [| |v|v|v|v|n ev]; simpl in *; try discriminate; auto.
      destruct v; [discriminate | reflexivity]. }
    split; [|exact Hl'].
    destruct (rederives op w) eqn:Hr.
    + rewrite (step_rederives w op Ho Hr) in *.
      apply rederived_off.
      destruct (rederived_config
                  (with_directive (written op (directive w)) w))
        as (<- & _); exact Hl'.
    + destruct op; simpl in Hr, Hd; try discriminate.
      * change (step w NgOnDestroy) with (clearListeners w).
        now rewrite clearListeners_silent.
      * now rewrite step_stores.
      * now rewrite step_stores.
      * now rewrite step_stores.
      * now rewrite step_stores.
Qed.

Lemma off_run (ops : list Op) :
  forall w, forallb (fun op => negb (turns_on op)) ops = true ->
            silent w /\ _isListening (directive w) = false ->
            silent (run ops w) /\
            interactOutsideEvent (run ops w) = interactOutsideEvent w /\
            mouseLeaveEvent (run ops w) = mouseLeaveEvent w.
Proof.
  induction ops as [|op ops IH]; intros w Hops Hw; simpl in *;
    [repeat split; apply Hw|].
  apply andb_true_iff in Hops; destruct Hops as [Hop Hops].
  apply negb_true_iff in Hop.
  destruct (off_step w op Hop Hw) as (Hw' & Hio & Hml).
  destruct (IH (step w op) Hops Hw') as (H1 & H2 & H3).
  repeat split; try apply H1; congruence.
Qed.

Lemma isListening_false_off (el : Node) (ops : list Op) :
  silent (isListening false (run ops (construct el))) /\
  _isListening (directive (isListening false (run ops (construct el)))) = false.
Proof.
  pose proof (reachable_owns_all el ops) as Ho.
  split; [|exact (f_equal (fun c => fst (fst (fst c)))
                    (proj1 (step_config _ (SetIsListening false))))].
  destruct (isInitialized (directive (run ops (construct el)))) eqn:Hi.
  - rewrite (isListening_rederives _ false Ho Hi).
    apply rederived_off; reflexivity.
  - change (isListening false (run ops (construct el)))
      with (step (run ops (construct el)) (SetIsListening false)).
    rewrite (step_stores _ (SetIsListening false) eq_refl Hi).
    exact (reachable_dormant el ops Hi).
Qed.

(** X16. Once [false] is written to [isListening], in any state, and
    until [true] is written to it, nothing is registered and nothing is
    emitted, whatever else happens meanwhile: events dispatched, the three
    flags written to any value, [ngOnInit], [ngOnDestroy]. *)
Theorem isListening_false_is_silent (el : Node) (ops more : list Op) :
  forallb (fun op => negb (turns_on op)) more = true ->
  listeners
    (renderer (run more (isListening false (run ops (construct el))))) = [] /\
  interactOutsideEvent
    (run more (isListening false (run ops (construct el)))) =
    interactOutsideEvent (run ops (construct el)) /\
  mouseLeaveEvent (run more (isListening false (run ops (construct el)))) =
    mouseLeaveEvent (run ops (construct el)).
Proof.
  intros Hm.
  destruct (off_run more _ Hm (isListening_false_off el ops))
    as ([Hl _] & -> & ->).
  split; [exact Hl|].
  exact (step_outputs (run ops (construct el)) (SetIsListening false) eq_refl).
Qed.

Lemma isListening_false_is_silent_witness :
  forallb (fun op => negb (turns_on op))
          [SetListenTouchStartOutside true;
           DispatchEvent Fixture.lastSibling Fixture.me; NgOnInit;
           DispatchEvent Fixture.lastSibling (Fixture.te Fixture.lastSibling);
           SetListenMouseLeave true;
           DispatchEvent Fixture.target_ Fixture.ml] = true /\
  interactOutsideEvent
    (run [SetListenTouchStartOutside true;
          DispatchEvent Fixture.lastSibling Fixture.me; NgOnInit;
          DispatchEvent Fixture.lastSibling (Fixture.te Fixture.lastSibling);
          SetListenMouseLeave true;
          DispatchEvent Fixture.target_ Fixture.ml]
         (isListening false (run Fixture.early (construct Fixture.target_)))) =
  interactOutsideEvent (run Fixture.early (construct Fixture.target_)).
Proof.
  split; [reflexivity|].
  apply (isListening_false_is_silent Fixture.target_ Fixture.early
           [SetListenTouchStartOutside true;
            DispatchEvent Fixture.lastSibling Fixture.me; NgOnInit;
            DispatchEvent Fixture.lastSibling (Fixture.te Fixture.lastSibling);
            SetListenMouseLeave true;
            DispatchEvent Fixture.target_ Fixture.ml]).
  reflexivity.
Defined.

(** ** The touch helper of the test suite *)

(** X17. [dispatchTouchEvent(touchTarget, 'touchstart')] of the test suite
    builds an event whose only changed touch rests on the node it is
    dispatched on, so for it the node decides: on a directive that is
    initialised and not destroyed, the call emits on
    [interactOutsideEvent] exactly when [isListening] and
    [listenTouchStartOutside] are on and the host does not contain
    [touchTarget]. *)
Theorem dispatchTouchEvent_touchTarget_decides
    (el : Node) (ops : list Op) (touchTarget : Node) :
  isInitialized (directive (run ops (construct el))) = true ->
  existsb is_destroy ops = false ->
  step (run ops (construct el)) (Fixture.touchstart touchTarget) =
  if _isListening (directive (run ops (construct el)))
     && _listenTouchStartOutside (directive (run ops (construct el)))
     && negb (contains el touchTarget)
  then emit_interactOutside
         (with_target touchTarget (Fixture.te touchTarget))
         (run ops (construct el))
  else run ops (construct el).
Proof.
  intros Hi Hd.
  exact (touchstart_heard el ops touchTarget (Fixture.te touchTarget)
           Hi Hd eq_refl eq_refl).
Qed.

Lemma dispatchTouchEvent_touchTarget_decides_witness :
  isInitialized (directive (run Fixture.toggled
                                (construct Fixture.target_))) = true /\
  existsb is_destroy Fixture.toggled = false /\
  step (run Fixture.toggled (construct Fixture.target_))
       (Fixture.touchstart Fixture.lastSibling) =
  if _isListening (directive (run Fixture.toggled (construct Fixture.target_)))
     && _listenTouchStartOutside
          (directive (run Fixture.toggled (construct Fixture.target_)))
     && negb (contains Fixture.target_ Fixture.lastSibling)
  then emit_interactOutside
         (with_target Fixture.lastSibling (Fixture.te Fixture.lastSibling))
         (run Fixture.toggled (construct Fixture.target_))
  else run Fixture.toggled (construct Fixture.target_).
Proof.
  split; [reflexivity|]. split; [reflexivity|].
  exact (dispatchTouchEvent_touchTarget_decides Fixture.target_
           Fixture.toggled Fixture.lastSibling eq_refl eq_refl).
Defined.
